(** * Sale-transaction processing core of the point-of-sale backend

    A shallow embedding of the handler of [POST /api/transactions]
    (src/routes/transactions.js, lines 353-651) together with the small part
    of the Mongoose/MongoDB behaviour it relies on, followed by the
    properties of the specification that concern it.  The same file of
    routes is then covered further: the display of stored transactions
    ([enhanceTransactionData] and the list of [GET /]), the status change
    and the deletion of a transaction, the pagination of the list and the
    statistics of [GET /stats/comprehensive]; from src/models/products.js,
    the virtual fields of a product and the price rule of its pre-save hook.

    Conventions of the embedding.
    - A JavaScript number is a rational ([Q]); equalities between numbers are
      stated with [==].  NaN, infinities and rounding are not represented:
      an equation between numbers is stated only where both sides are the
      same expression of the code or where no arithmetic is involved, and
      sums are taken in the order in which the code adds.
    - A field of the request body that may be absent is an [option]; [None]
      is JavaScript's [undefined].
    - [a || b] is modelled by the [or*] helpers below: a number is falsy when
      it is absent or zero, a string when it is absent or empty.
    - Product and transaction identifiers are the strings produced by
      [_id.toString()], 24 hexadecimal digits.  The reads by id are modelled
      on such identifiers only: an identifier that the driver cannot cast to
      an ObjectId makes the read throw a [CastError], which is not
      represented.  Every statement about an identifier that is not stored
      therefore assumes that the identifiers concerned are ObjectId strings.
    - The unit of work ([session.withTransaction]) runs its callback on the
      store and keeps the writes only when the callback returns normally.
    - The handler reads two identifiers, [totalCost] and [totalProfit], that
      it does not declare.  How they resolve is a parameter of the model
      ([Runtime]); [shippedRuntime] below is the handler as it is written,
      where reading them throws a [ReferenceError].
    - Concurrency between requests and the driver's retry of a unit of work
      are outside the model: one request runs alone against the store.  The
      [protect] and [authorize] middleware has let the request through. *)

From Stdlib Require Import QArith Qminmax Qround Ascii String.
From stdpp Require Import gmap strings list pretty.

(** ** JavaScript values *)

(** [x < y] on numbers, as a boolean. *)
Definition Qltb (x y : Q) : bool := negb (Qle_bool y x).

(** Truthiness of an optional number and of an optional string. *)
Definition truthyN (x : option Q) : bool :=
  match x with
  | Some q => negb (Qeq_bool q 0)
  | None => false
  end.

Definition truthyS (x : option string) : bool :=
  match x with
  | Some s => negb (String.eqb s EmptyString)
  | None => false
  end.

(** [x || d] where [x] may be absent and [d] is a number. *)
Definition orN (x : option Q) (d : Q) : Q :=
  match x with
  | Some q => if Qeq_bool q 0 then d else q
  | None => d
  end.

(** [q || d] where [q] is a number that is always present. *)
Definition orQ (q d : Q) : Q := if Qeq_bool q 0 then d else q.

(** [x || d] on strings, with a string default. *)
Definition orS (x : option string) (d : string) : string :=
  match x with
  | Some s => if String.eqb s EmptyString then d else s
  | None => d
  end.

(** [x || y] where both operands may be absent. *)
Definition orOptS (x y : option string) : option string :=
  if truthyS x then x else y.

(** A destructuring default [{ f = d }]: it applies only to [undefined]. *)
Definition defaultTo {A : Type} (x : option A) (d : A) : A :=
  match x with
  | Some a => a
  | None => d
  end.

(** [String.prototype.toLowerCase], on ASCII letters. *)
Definition toLowerCaseAscii (c : ascii) : ascii :=
  let n := N_of_ascii c in
  if ((65 <=? n) && (n <=? 90))%N then ascii_of_N (n + 32) else c.

Fixpoint toLowerCase (s : string) : string :=
  match s with
  | EmptyString => EmptyString
  | String c s' => String (toLowerCaseAscii c) (toLowerCase s')
  end.

(** [haystack.includes(needle)]. *)
Fixpoint includes (needle haystack : string) : bool :=
  String.prefix needle haystack ||
  match haystack with
  | EmptyString => false
  | String _ rest => includes needle rest
  end.

(** [array.includes(x)] on an array of strings. *)
Definition arrayIncludes (l : list string) (x : string) : bool :=
  existsb (String.eqb x) l.

(** The text of an optional identifier inside a template literal. *)
Definition idText (x : option string) : string :=
  match x with
  | Some s => s
  | None => "undefined"
  end.

(** An exception: only its message is inspected by the handler. *)
Record JsError := { err_message : string }.

(** ** Data model *)

(** One line of the cart, as sent by the caller. *)
Module Item.
Record t := {
  productId : option string;
  productName : option string;
  category : option string;
  barcode : option string;
  quantity : option Q;
  unitPrice : option Q;
  price : option Q;
  totalPrice : option Q
}.
End Item.

(** An entry of a product's stock history, as the update stores it.  The
    handler also puts [shop] and [cashier] in the entry it pushes; they are
    not paths of the [stockHistory] sub-schema (src/models/products.js,
    lines 111-129) and the update drops them. *)
Module History.
Record t := {
  date : Z;
  type : string;
  quantity : Q;
  newStock : Q;
  reference : string
}.
End History.

(** A catalog product (src/models/products.js), restricted to the paths the
    handler reads or writes.  [sellingPrice] and [lastSold] are not paths of
    the schema: reading the first from a document yields [undefined], and
    the update drops what the handler writes to the second. *)
Module Product.
Record t := {
  name : string;
  category : string;
  barcode : option string;
  buyingPrice : Q;
  minSellingPrice : Q;
  currentStock : Q;
  stockHistory : list History.t
}.
Definition sellingPrice (p : t) : option Q := None.
End Product.

(** A priced line, embedded in the transaction. *)
Module Line.
Record t := {
  productId : option string;
  productName : string;
  category : string;
  barcode : string;
  quantity : Q;
  unitPrice : Q;
  price : Q;
  totalPrice : Q;
  costPrice : Q;
  profit : Q;
  profitMargin : Q
}.
(** The cost of the line, [costPrice * quantity]. *)
Definition cost (l : t) : Q := costPrice l * quantity l.
End Line.

(** Modelled from the spec: the Transaction model (models/Transaction) is not
    among the sources; the record has the fields the handler passes to its
    constructor, and saving it appends it to the collection unchanged. *)
Module Txn.
Record t := {
  saleType : string;
  status : string;
  paymentMethod : string;
  totalAmount : Q;
  amountPaid : Q;
  changeGiven : Q;
  subtotal : Q;
  taxAmount : Q;
  discountAmount : Q;
  items : list Line.t;
  customerName : string;
  customerPhone : string;
  shop : string;
  shopName : string;
  cashierId : option string;
  cashierName : option string;
  saleDate : Z;
  notes : string;
  transactionNumber : string;
  receiptNumber : string;
  totalCost : Q;
  totalProfit : Q;
  profitMargin : Q;
  createdBy : string
}.
End Txn.

(** The body of the request, and the authenticated user's id. *)
Module Req.
Record t := {
  saleType : option string;
  status : option string;
  paymentMethod : option string;
  totalAmount : option Q;
  amountPaid : option Q;
  changeGiven : option Q;
  subtotal : option Q;
  taxAmount : option Q;
  discountAmount : option Q;
  items : option (list Item.t);
  customerName : option string;
  customerPhone : option string;
  shop : option string;
  shopId : option string;
  shopName : option string;
  cashierId : option string;
  cashierName : option string;
  saleDate : option Z;
  notes : option string;
  transactionNumber : option string;
  userId : option string
}.
End Req.

(** One entry of the stock-update summary returned to the caller. *)
Module StockUpdate.
Record t := {
  productId : option string;
  productName : string;
  oldStock : Q;
  newStock : Q;
  quantitySold : Q
}.
End StockUpdate.

(** The two collections the handler touches. *)
Record Store := {
  products : gmap string Product.t;
  transactions : list Txn.t
}.

(** How a free identifier of the handler resolves. *)
Inductive Binding :=
  | Unbound
  | Bound (v : option Q).

(** What the handler takes from its surroundings: the resolution of the two
    identifiers [totalCost] and [totalProfit] that it reads without declaring
    them, the rendering of a number in a template literal, the clock and the
    random suffix of a generated transaction number. *)
Record Runtime := {
  scope_totalCost : Binding;
  scope_totalProfit : Binding;
  numberToString : Q -> string;
  dateNow : Z;
  randomSuffix : string
}.

(** The JSON body of a response. *)
Inductive Body :=
  | ShopRequired (message : string)
  | ValidationFailed (message : string) (errors : list string)
  | Created (data : Txn.t) (shopInfo : string * string)
      (updates : list StockUpdate.t) (totalItems : Q)
  | Failure (message : string) (error : string) (code : string).

Record Response := {
  res_status : Z;
  res_body : Body
}.

(** ** The unit of work *)

Inductive Completion (A : Type) :=
  | Normal (a : A)
  | Throw (e : JsError).
Arguments Normal {A} a.
Arguments Throw {A} e.

(** A computation inside a session: it reads and writes the store and either
    completes or throws. *)
Definition Session (A : Type) : Type := Store -> Completion A * Store.

Definition ret {A : Type} (a : A) : Session A := fun db => (Normal a, db).

Definition throw {A : Type} (msg : string) : Session A :=
  fun db => (Throw {| err_message := msg |}, db).

Definition bind {A B : Type} (m : Session A) (k : A -> Session B) : Session B :=
  fun db =>
    match m db with
    | (Normal a, db') => k a db'
    | (Throw e, db') => (Throw e, db')
    end.

Notation "'let*' x ':=' m 'in' k" := (bind m (fun x => k))
  (at level 10, x name, m at level 100, k at level 200).

(** [session.withTransaction(callback)]: the writes of the callback are
    committed when it returns and discarded when it throws; the exception is
    passed on. *)
Definition withTransaction {A : Type} (callback : Session A) : Session A :=
  fun db =>
    match callback db with
    | (Normal a, db') => (Normal a, db')
    | (Throw e, _) => (Throw e, db)
    end.

(** [Product.find({ _id: { $in: productIds } })] turned into a [Map] keyed by
    the id's text, for a list of ObjectId strings (the cast that the read
    applies to every id of the list fails on any other string). *)
Definition findProducts (productIds : list string) (db : Store)
  : gmap string Product.t :=
  match productIds with
  | [] => ∅
  | _ => filter (fun kv => kv.1 ∈ productIds) (products db)
  end.

(** [productMap.get(item.productId?.toString())]. *)
Definition getProduct (productMap : gmap string Product.t) (item : Item.t)
  : option Product.t :=
  match Item.productId item with
  | Some id => productMap !! id
  | None => None
  end.

(** The update document of [Product.findByIdAndUpdate] (lines 476-490) as it
    is applied: the new stock and one more history entry.  The time [now]
    that the handler assigns to [lastSold] is dropped with that field. *)
Definition applyStockUpdate (newStock : Q) (entry : History.t) (now : Z)
  (p : Product.t) : Product.t :=
  {| Product.name := Product.name p;
     Product.category := Product.category p;
     Product.barcode := Product.barcode p;
     Product.buyingPrice := Product.buyingPrice p;
     Product.minSellingPrice := Product.minSellingPrice p;
     Product.currentStock := newStock;
     Product.stockHistory := Product.stockHistory p ++ [entry] |}.

Definition findByIdAndUpdate (id : option string) (newStock : Q)
  (entry : History.t) (now : Z) : Session unit :=
  fun db =>
    match id with
    | Some i =>
        (Normal tt,
         {| products :=
              alter (applyStockUpdate newStock entry now) i (products db);
            transactions := transactions db |})
    | None => (Normal tt, db)
    end.

(** [transaction.save({ session })]. *)
Definition saveTransaction (t : Txn.t) : Session unit :=
  fun db =>
    (Normal tt,
     {| products := products db; transactions := transactions db ++ [t] |}).

(** ** The handler of POST /api/transactions *)

(** The running totals and the two arrays filled by the loop over the items. *)
Record Acc := {
  calculatedTotalAmount : Q;
  calculatedTotalCost : Q;
  calculatedTotalProfit : Q;
  transactionItems : list Line.t;
  stockUpdates : list StockUpdate.t
}.

Definition emptyAcc : Acc :=
  {| calculatedTotalAmount := 0;
     calculatedTotalCost := 0;
     calculatedTotalProfit := 0;
     transactionItems := [];
     stockUpdates := [] |}.

(** [item.quantity || 1]. *)
Definition itemQuantity (item : Item.t) : Q := orN (Item.quantity item) 1.

(** [item.unitPrice || item.price || product.minSellingPrice
     || product.sellingPrice || 0]. *)
Definition itemPrice (item : Item.t) (product : Product.t) : Q :=
  orN (Item.unitPrice item)
    (orN (Item.price item)
       (orQ (Product.minSellingPrice product)
          (orN (Product.sellingPrice product) 0))).

(** [item.totalPrice || (itemPrice * itemQuantity)]. *)
Definition itemTotalPrice (item : Item.t) (product : Product.t) : Q :=
  orN (Item.totalPrice item) (itemPrice item product * itemQuantity item).

(** [product.buyingPrice || 0]. *)
Definition itemCostPrice (product : Product.t) : Q :=
  orQ (Product.buyingPrice product) 0.

Definition itemCost (item : Item.t) (product : Product.t) : Q :=
  itemCostPrice product * itemQuantity item.

Definition itemProfit (item : Item.t) (product : Product.t) : Q :=
  itemTotalPrice item product - itemCost item product.

(** The object pushed on [transactionItems] (lines 455-467). *)
Definition priceLineItem (item : Item.t) (product : Product.t) : Line.t :=
  {| Line.productId := Item.productId item;
     Line.productName := orS (Item.productName item) (Product.name product);
     Line.category :=
       orS (Item.category item)
         (orS (Some (Product.category product)) "Uncategorized");
     Line.barcode :=
       orS (Item.barcode item) (orS (Product.barcode product) EmptyString);
     Line.quantity := itemQuantity item;
     Line.unitPrice := itemPrice item product;
     Line.price := itemPrice item product;
     Line.totalPrice := itemTotalPrice item product;
     Line.costPrice := itemCostPrice product;
     Line.profit := itemProfit item product;
     Line.profitMargin :=
       if Qltb 0 (itemTotalPrice item product)
       then (itemProfit item product / itemTotalPrice item product) * 100
       else 0 |}.

(** [product.currentStock || 0], read from the document loaded before the
    loop. *)
Definition currentStock (product : Product.t) : Q :=
  orQ (Product.currentStock product) 0.

Definition insufficientStockMessage (rt : Runtime) (product : Product.t)
  (item : Item.t) : string :=
  "Insufficient stock for " +:+ Product.name product +:+
  ". Available: " +:+ numberToString rt (currentStock product) +:+
  ", Requested: " +:+ numberToString rt (itemQuantity item).

Definition productNotFoundMessage (item : Item.t) : string :=
  "Product not found with ID: " +:+ idText (Item.productId item).

(** [Math.max(0, currentStock - itemQuantity)]. *)
Definition newStock (product : Product.t) (item : Item.t) : Q :=
  Qmax 0 (currentStock product - itemQuantity item).

(** The history entry pushed for a line (lines 479-487), as stored:
    [finalShopId] and the cashier's name go into the two fields that the
    update drops. *)
Definition historyEntry (rt : Runtime) (req : Req.t) (finalShopId : string)
  (product : Product.t) (item : Item.t) : History.t :=
  {| History.date := dateNow rt;
     History.type := "sale";
     History.quantity := - itemQuantity item;
     History.newStock := newStock product item;
     History.reference :=
       "Transaction: " +:+ orS (Req.transactionNumber req) "pending" |}.

Definition stockUpdateOf (product : Product.t) (item : Item.t)
  : StockUpdate.t :=
  {| StockUpdate.productId := Item.productId item;
     StockUpdate.productName := Product.name product;
     StockUpdate.oldStock := currentStock product;
     StockUpdate.newStock := newStock product item;
     StockUpdate.quantitySold := itemQuantity item |}.

(** The totals and the priced line after one item (lines 451-467). *)
Definition addLine (acc : Acc) (item : Item.t) (product : Product.t) : Acc :=
  {| calculatedTotalAmount :=
       calculatedTotalAmount acc + itemTotalPrice item product;
     calculatedTotalCost := calculatedTotalCost acc + itemCost item product;
     calculatedTotalProfit :=
       calculatedTotalProfit acc + itemProfit item product;
     transactionItems := transactionItems acc ++ [priceLineItem item product];
     stockUpdates := stockUpdates acc |}.

Definition addStockUpdate (acc : Acc) (item : Item.t) (product : Product.t)
  : Acc :=
  {| calculatedTotalAmount := calculatedTotalAmount acc;
     calculatedTotalCost := calculatedTotalCost acc;
     calculatedTotalProfit := calculatedTotalProfit acc;
     transactionItems := transactionItems acc;
     stockUpdates := stockUpdates acc ++ [stockUpdateOf product item] |}.

(** One iteration of the loop over the items (lines 429-504). *)
Definition processItem (rt : Runtime) (req : Req.t)
  (status finalShopId : string) (productMap : gmap string Product.t)
  (acc : Acc) (item : Item.t) : Session Acc :=
  match getProduct productMap item with
  | None => throw (productNotFoundMessage item)
  | Some product =>
      if String.eqb status "completed"
         && Qltb (currentStock product) (itemQuantity item)
      then throw (insufficientStockMessage rt product item)
      else
        let acc1 := addLine acc item product in
        if String.eqb status "completed"
        then
          let* _ := findByIdAndUpdate (Item.productId item)
                      (newStock product item)
                      (historyEntry rt req finalShopId product item)
                      (dateNow rt) in
          ret (addStockUpdate acc1 item product)
        else ret acc1
  end.

Fixpoint processItems (rt : Runtime) (req : Req.t)
  (status finalShopId : string) (productMap : gmap string Product.t)
  (acc : Acc) (items : list Item.t) : Session Acc :=
  match items with
  | [] => ret acc
  | item :: rest =>
      let* acc' := processItem rt req status finalShopId productMap acc item in
      processItems rt req status finalShopId productMap acc' rest
  end.

(** Reading an identifier: a [ReferenceError] when nothing binds it. *)
Definition readIdentifier (name : string) (b : Binding) : Session (option Q) :=
  match b with
  | Bound v => ret v
  | Unbound => throw (name +:+ " is not defined")
  end.

(** The accepted payment methods (line 398). *)
Definition acceptedPaymentMethods : list string :=
  ["cash"; "mpesa"; "bank"; "card"].

(** [!items || !Array.isArray(items) || items.length === 0]. *)
Definition itemsMissing (items : option (list Item.t)) : bool :=
  match items with
  | Some (_ :: _) => false
  | _ => true
  end.

(** [!totalAmount || totalAmount <= 0]. *)
Definition totalAmountInvalid (totalAmount : option Q) : bool :=
  negb (truthyN totalAmount) ||
  match totalAmount with
  | Some q => Qle_bool q 0
  | None => false
  end.

(** The list built by the validation block (lines 396-403), for a payment
    method that is a string. *)
Definition validationErrors (req : Req.t) (paymentMethod : string)
  : list string :=
  (if negb (truthyS (Some paymentMethod))
   then ["Payment method is required"] else []) ++
  (if negb (arrayIncludes acceptedPaymentMethods (toLowerCase paymentMethod))
   then ["Payment method must be cash, mpesa, bank, or card"] else []) ++
  (if totalAmountInvalid (Req.totalAmount req)
   then ["Valid total amount is required"] else []) ++
  (if itemsMissing (Req.items req)
   then ["Transaction items are required"] else []) ++
  (if negb (truthyS (Req.cashierId req)) || negb (truthyS (Req.cashierName req))
   then ["Cashier information is required"] else []).

(** [items.map(item => item.productId).filter(id => id)]. *)
Definition productIds (items : list Item.t) : list string :=
  omap (fun item =>
          if truthyS (Item.productId item) then Item.productId item else None)
       items.

(** [new Transaction({...})] (lines 506-541), once the two identifiers have
    been read. *)
Definition newTransaction (rt : Runtime) (req : Req.t)
  (status paymentMethod finalShopId finalShopName : string)
  (totalCost totalProfit : option Q) (acc : Acc) : Txn.t :=
  let finalTotalAmount :=
    orN (Req.totalAmount req) (calculatedTotalAmount acc) in
  let finalTotalCost := orN totalCost (calculatedTotalCost acc) in
  let finalTotalProfit := orN totalProfit (calculatedTotalProfit acc) in
  let profitMargin :=
    (if Qltb 0 finalTotalAmount
     then (finalTotalProfit / finalTotalAmount) * 100 else 0)%Q in
  let finalTransactionNumber :=
    orS (Req.transactionNumber req)
      ("TXN-" +:+ numberToString rt (inject_Z (dateNow rt)) +:+ "-" +:+
       randomSuffix rt) in
  {| Txn.saleType := defaultTo (Req.saleType req) "retail";
     Txn.status := status;
     Txn.paymentMethod := toLowerCase paymentMethod;
     Txn.totalAmount := finalTotalAmount;
     Txn.amountPaid := orN (Req.amountPaid req) finalTotalAmount;
     Txn.changeGiven := defaultTo (Req.changeGiven req) 0%Q;
     Txn.subtotal := orN (Req.subtotal req) finalTotalAmount;
     Txn.taxAmount := defaultTo (Req.taxAmount req) 0%Q;
     Txn.discountAmount := defaultTo (Req.discountAmount req) 0%Q;
     Txn.items := transactionItems acc;
     Txn.customerName := defaultTo (Req.customerName req) "Walk-in Customer";
     Txn.customerPhone := defaultTo (Req.customerPhone req) EmptyString;
     Txn.shop := finalShopId;
     Txn.shopName := finalShopName;
     Txn.cashierId := Req.cashierId req;
     Txn.cashierName := Req.cashierName req;
     Txn.saleDate :=
       match Req.saleDate req with
       | Some d => if (d =? 0)%Z then dateNow rt else d
       | None => dateNow rt
       end;
     Txn.notes := defaultTo (Req.notes req) EmptyString;
     Txn.transactionNumber := finalTransactionNumber;
     Txn.receiptNumber := "RCP-" +:+ numberToString rt (inject_Z (dateNow rt));
     Txn.totalCost := finalTotalCost;
     Txn.totalProfit := finalTotalProfit;
     Txn.profitMargin := profitMargin;
     Txn.createdBy := orS (Req.userId req) "system" |}.

(** The [201] response (lines 598-618).  [data] stands for the saved document
    read back in the same session; the display fields that the handler derives
    from it (lines 563-596) are not represented. *)
Definition createdResponse (t : Txn.t) (finalShopId finalShopName : string)
  (acc : Acc) : Response :=
  {| res_status := 201;
     res_body :=
       Created t (finalShopId, finalShopName) (stockUpdates acc)
         (fold_left (fun sum l => sum + orQ (Line.quantity l) 0)%Q
            (transactionItems acc) 0%Q) |}.

(** The end of the callback (lines 506-618): the two identifiers are read,
    the transaction is built and saved, and the response is sent. *)
Definition finaliseSale (rt : Runtime) (req : Req.t)
  (status paymentMethod finalShopId finalShopName : string) (acc : Acc)
  : Session Response :=
  let* totalCost := readIdentifier "totalCost" (scope_totalCost rt) in
  let* totalProfit := readIdentifier "totalProfit" (scope_totalProfit rt) in
  let transaction :=
    newTransaction rt req status paymentMethod finalShopId finalShopName
      totalCost totalProfit acc in
  let* _ := saveTransaction transaction in
  ret (createdResponse transaction finalShopId finalShopName acc).

(** The message of the shop check (line 391). *)
Definition shopRequiredMessage : string :=
  "Shop information is required. Provide either shop or shopId".

(** The callback passed to [session.withTransaction] (lines 360-619). *)
Definition saleCallback (rt : Runtime) (req : Req.t) : Session Response :=
  let status := defaultTo (Req.status req) "completed" in
  let finalShop := orOptS (Req.shopId req) (Req.shop req) in
  if negb (truthyS finalShop)
  then ret {| res_status := 400; res_body := ShopRequired shopRequiredMessage |}
  else
    let finalShopId := idText finalShop in
    let finalShopName := orS (Req.shopName req) ("Shop " +:+ finalShopId) in
    match Req.paymentMethod req with
    | None =>
        throw "Cannot read properties of undefined (reading 'toLowerCase')"
    | Some paymentMethod =>
        match validationErrors req paymentMethod with
        | (_ :: _) as errors =>
            ret {| res_status := 400;
                   res_body := ValidationFailed "Validation failed" errors |}
        | [] =>
            fun db =>
              let items := defaultTo (Req.items req) [] in
              let productMap := findProducts (productIds items) db in
              (let* acc := processItems rt req status finalShopId productMap
                             emptyAcc items in
               finaliseSale rt req status paymentMethod finalShopId
                 finalShopName acc) db
        end
    end.

(** The [catch] block (lines 620-647). *)
Definition errorResponse (e : JsError) : Response :=
  if includes "Insufficient stock" (err_message e)
  then {| res_status := 400;
          res_body :=
            Failure "Stock validation failed" (err_message e)
              "INSUFFICIENT_STOCK" |}
  else if includes "Product not found" (err_message e)
  then {| res_status := 404;
          res_body :=
            Failure "Product not found" (err_message e) "PRODUCT_NOT_FOUND" |}
  else {| res_status := 500;
          res_body :=
            Failure "Failed to process transaction" (err_message e)
              "TRANSACTION_FAILED" |}.

(** The whole handler: the response sent and the store left behind. *)
Definition processSale (rt : Runtime) (req : Req.t) (db : Store)
  : Response * Store :=
  match withTransaction (saleCallback rt req) db with
  | (Normal res, db') => (res, db')
  | (Throw e, db') => (errorResponse e, db')
  end.

(** ** Notions used to state the properties *)

(** The status and the cart a request is processed with. *)
Definition statusOf (req : Req.t) : string :=
  defaultTo (Req.status req) "completed".

Definition cartOf (req : Req.t) : list Item.t :=
  defaultTo (Req.items req) [].

(** [shopId || shop] and [shopName || `Shop ${finalShopId}`]. *)
Definition finalShopIdOf (req : Req.t) : string :=
  idText (orOptS (Req.shopId req) (Req.shop req)).

Definition finalShopNameOf (req : Req.t) : string :=
  orS (Req.shopName req) ("Shop " +:+ finalShopIdOf req).

(** The catalog documents read at the start of the unit of work. *)
Definition productMapOf (req : Req.t) (db : Store) : gmap string Product.t :=
  findProducts (productIds (cartOf req)) db.

(** The request gets past the shop check and the validation block. *)
Definition passesValidation (req : Req.t) : bool :=
  truthyS (orOptS (Req.shopId req) (Req.shop req)) &&
  match Req.paymentMethod req with
  | Some paymentMethod =>
      match validationErrors req paymentMethod with
      | [] => true
      | _ :: _ => false
      end
  | None => false
  end.

(** The catalog product a cart line refers to, if any. *)
Definition catalogLookup (db : Store) (item : Item.t) : option Product.t :=
  match Item.productId item with
  | Some id => if String.eqb id EmptyString then None else products db !! id
  | None => None
  end.

(** The line asks for more than the stock read from the catalog, in a sale
    whose status is [completed]. *)
Definition overStock (status : string) (product : Product.t) (item : Item.t)
  : bool :=
  String.eqb status "completed"
  && Qltb (currentStock product) (itemQuantity item).

(** The line resolves to a product and passes the stock check. *)
Definition accepted (status : string) (db : Store) (item : Item.t) : bool :=
  match catalogLookup db item with
  | Some product => negb (overStock status product item)
  | None => false
  end.

(** The machine-readable code of an error response. *)
Definition res_code (r : Response) : option string :=
  match res_body r with
  | Failure _ _ code => Some code
  | _ => None
  end.

(** The response sent when the stock check fails on [item]. *)
Definition insufficientStockResponse (rt : Runtime) (product : Product.t)
  (item : Item.t) : Response :=
  {| res_status := 400;
     res_body :=
       Failure "Stock validation failed"
         ("Insufficient stock for " +:+ Product.name product +:+
          ". Available: " +:+ numberToString rt (currentStock product) +:+
          ", Requested: " +:+ numberToString rt (itemQuantity item))
         "INSUFFICIENT_STOCK" |}.

(** The response sent when [item] does not resolve to a product. *)
Definition productNotFoundResponse (item : Item.t) : Response :=
  {| res_status := 404;
     res_body :=
       Failure "Product not found"
         ("Product not found with ID: " +:+ idText (Item.productId item))
         "PRODUCT_NOT_FOUND" |}.

(** Sum of a list of numbers. *)
Definition sumQ (l : list Q) : Q := fold_right Qplus 0%Q l.


(** The stock of a product in a store. *)
Definition stockOf (db : Store) (id : string) : option Q :=
  Product.currentStock <$> products db !! id.

(** The text of an ObjectId: 24 hexadecimal digits. *)
Definition isHexDigit (c : ascii) : bool :=
  let n := N_of_ascii c in
  ((48 <=? n) && (n <=? 57) || (97 <=? n) && (n <=? 102)
   || (65 <=? n) && (n <=? 70))%N.

Fixpoint allHex (s : string) : bool :=
  match s with
  | EmptyString => true
  | String c rest => isHexDigit c && allHex rest
  end.

Definition isObjectIdText (s : string) : bool :=
  (String.length s =? 24)%nat && allHex s.

(** The identifier of a cart line is absent or an ObjectId. *)
Definition wellFormedId (id : option string) : bool :=
  match id with
  | Some s => isObjectIdText s
  | None => true
  end.

(** An optional number that is absent or not negative. *)
Definition absentOrNonNegative (x : option Q) : Prop :=
  match x with
  | Some q => (0 <= q)%Q
  | None => True
  end.

(** Every identifier of the cart is absent or an ObjectId string. *)
Definition wellFormedCart (req : Req.t) : Prop :=
  Forall (fun i => wellFormedId (Item.productId i) = true) (cartOf req).




(** ** Concrete runtimes, catalogs and requests *)

(** A rendering of numbers that agrees with JavaScript on integers. *)
Definition exampleNumberToString (q : Q) : string :=
  let r := Qred q in
  if (Qden r =? 1)%positive then pretty (Qnum r)
  else pretty (Qnum r) +:+ "/" +:+ pretty (Zpos (Qden r)).

(** The handler as it is written: nothing binds [totalCost] or
    [totalProfit]. *)
Definition shippedRuntime : Runtime :=
  {| scope_totalCost := Unbound;
     scope_totalProfit := Unbound;
     numberToString := exampleNumberToString;
     dateNow := 1700000000000;
     randomSuffix := "K3J9Q" |}.

(** A handler whose scope declares the two identifiers without a value. *)
Definition declaredRuntime : Runtime :=
  {| scope_totalCost := Bound None;
     scope_totalProfit := Bound None;
     numberToString := exampleNumberToString;
     dateNow := 1700000000000;
     randomSuffix := "K3J9Q" |}.

Definition mkProduct (name : string) (buyingPrice minSellingPrice stock : Q)
  : Product.t :=
  {| Product.name := name;
     Product.category := "Drinks";
     Product.barcode := None;
     Product.buyingPrice := buyingPrice;
     Product.minSellingPrice := minSellingPrice;
     Product.currentStock := stock;
     Product.stockHistory := [] |}.

Definition mkItem (id : string) (quantity : Q) : Item.t :=
  {| Item.productId := Some id;
     Item.productName := None;
     Item.category := None;
     Item.barcode := None;
     Item.quantity := Some quantity;
     Item.unitPrice := None;
     Item.price := None;
     Item.totalPrice := None |}.

Definition mkReq (shop : option string) (totalAmount : Q)
  (items : list Item.t) : Req.t :=
  {| Req.saleType := None;
     Req.status := Some "completed";
     Req.paymentMethod := Some "cash";
     Req.totalAmount := Some totalAmount;
     Req.amountPaid := None;
     Req.changeGiven := None;
     Req.subtotal := None;
     Req.taxAmount := None;
     Req.discountAmount := None;
     Req.items := Some items;
     Req.customerName := None;
     Req.customerPhone := None;
     Req.shop := shop;
     Req.shopId := None;
     Req.shopName := None;
     Req.cashierId := Some "665f1c2ab3d4e5f6a7b8c9d1";
     Req.cashierName := Some "Amina";
     Req.saleDate := None;
     Req.notes := None;
     Req.transactionNumber := None;
     Req.userId := None |}.

Definition shopA : option string := Some "665f1c2ab3d4e5f6a7b8c9d0".

(** Product ids: [idP] and [idR] are in the catalog, [idX] is not. *)
Definition idP : string := "64b7f1a2c3d4e5f601234567".
Definition idR : string := "64b7f1a2c3d4e5f601234569".
Definition idX : string := "64b7f1a2c3d4e5f601234568".

(** The product of scenarios A and B: stock 10, cost 5, price 8. *)
Definition productP : Product.t := mkProduct "Soda" 5 8 10.
Definition productR : Product.t := mkProduct "Juice" 4 6 2.

Definition storeA : Store :=
  {| products := {[ idP := productP ]}; transactions := [] |}.

Definition storePR : Store :=
  {| products := <[ idR := productR ]> {[ idP := productP ]};
     transactions := [] |}.

(** The same product with only 4 units left (scenario E). *)
Definition storeE : Store :=
  {| products := {[ idP := mkProduct "Soda" 5 8 4 ]}; transactions := [] |}.

(** Scenario A: three units of P. *)
Definition requestA : Req.t := mkReq shopA 24 [mkItem idP 3].

(** Scenario B: eleven units of P. *)
Definition requestB : Req.t := mkReq shopA 88 [mkItem idP 11].

(** Two units of P, then five units of R of which only two are left. *)
Definition requestPR : Req.t := mkReq shopA 46 [mkItem idP 2; mkItem idR 5].

(** Scenario C: one unit of P, then a line with an unknown id. *)
Definition requestC : Req.t := mkReq shopA 8 [mkItem idP 1; mkItem idX 1].

(** Eleven units of P, then a line with an unknown id. *)
Definition requestBX : Req.t := mkReq shopA 96 [mkItem idP 11; mkItem idX 1].

(** Scenario E: the same product twice, 2 and 3 units. *)
Definition requestE : Req.t := mkReq shopA 40 [mkItem idP 2; mkItem idP 3].

(** No shop and a total amount of zero. *)
Definition requestNoShop : Req.t := mkReq None 0 [mkItem idP 1].

(** An unknown payment method, a zero total and an empty cart. *)
Definition requestInvalid : Req.t :=
  {| Req.saleType := None;
     Req.status := None;
     Req.paymentMethod := Some "cheque";
     Req.totalAmount := Some 0%Q;
     Req.amountPaid := None;
     Req.changeGiven := None;
     Req.subtotal := None;
     Req.taxAmount := None;
     Req.discountAmount := None;
     Req.items := Some [];
     Req.customerName := None;
     Req.customerPhone := None;
     Req.shop := shopA;
     Req.shopId := None;
     Req.shopName := None;
     Req.cashierId := None;
     Req.cashierName := Some "Amina";
     Req.saleDate := None;
     Req.notes := None;
     Req.transactionNumber := None;
     Req.userId := None |}.


(** A line with an unknown id, then eleven units of P. *)
Definition requestXB : Req.t := mkReq shopA 96 [mkItem idX 1; mkItem idP 11].

(** Three units of P for a total of 20 set by the caller. *)
Definition requestDiscounted : Req.t := mkReq shopA 20 [mkItem idP 3].

(** A line with a unit price of 9 set by the caller. *)
Definition itemOverride : Item.t :=
  {| Item.productId := Some idP;
     Item.productName := None;
     Item.category := None;
     Item.barcode := None;
     Item.quantity := Some 2%Q;
     Item.unitPrice := Some 9%Q;
     Item.price := None;
     Item.totalPrice := None |}.

(** A line with a negative unit price. *)
Definition itemNegativePrice : Item.t :=
  {| Item.productId := Some idP;
     Item.productName := None;
     Item.category := None;
     Item.barcode := None;
     Item.quantity := Some 2%Q;
     Item.unitPrice := Some (-3)%Q;
     Item.price := None;
     Item.totalPrice := None |}.

(** ** Stored transactions and their display *)

(** A line of a stored transaction as a reader finds it: any field may be
    missing.  Only the fields that the display code reads or sets are
    represented; [cost] is the field added for display. *)
Module ItemDoc.
Record t := {
  productName : option string;
  category : option string;
  barcode : option string;
  quantity : option Q;
  unitPrice : option Q;
  price : option Q;
  totalPrice : option Q;
  costPrice : option Q;
  cost : option Q;
  profit : option Q;
  profitMargin : option Q
}.
End ItemDoc.

(** A stored transaction as a reader finds it.  [totalAmount] is a number
    in every stored transaction; [cashierIdName] is [cashierId?.name],
    present when the reference has been populated; a date is a [Date]
    object, which is truthy whenever it is present; [cost], [profit] and
    [itemsCount] are the fields added for display. *)
Module TxnDoc.
Record t := {
  id : option string;
  transactionNumber : option string;
  status : option string;
  paymentMethod : option string;
  cashierName : option string;
  cashierIdName : option string;
  customerName : option string;
  totalAmount : Q;
  totalCost : option Q;
  totalProfit : option Q;
  profitMargin : option Q;
  cost : option Q;
  profit : option Q;
  itemsCount : option Q;
  saleDate : option Z;
  createdAt : option Z;
  updatedAt : option Z;
  items : option (list ItemDoc.t)
}.
End TxnDoc.

(** The object built for each item by [enhanceTransactionData]
    (lines 54-74), and again by the handler of [GET /] (lines 177-197). *)
Definition enhanceItem (item : ItemDoc.t) : ItemDoc.t :=
  let itemCost :=
    (orN (ItemDoc.costPrice item) 0 * orN (ItemDoc.quantity item) 0)%Q in
  let itemProfit :=
    orN (ItemDoc.profit item) (orN (ItemDoc.totalPrice item) 0 - itemCost) in
  let itemProfitMargin :=
    orN (ItemDoc.profitMargin item)
      (if Qltb 0 (orN (ItemDoc.totalPrice item) 0)
       then (itemProfit / orN (ItemDoc.totalPrice item) 0) * 100
       else 0) in
  {| ItemDoc.productName :=
       Some (orS (ItemDoc.productName item) "Unknown Product");
     ItemDoc.category := Some (orS (ItemDoc.category item) "Uncategorized");
     ItemDoc.barcode := Some (orS (ItemDoc.barcode item) EmptyString);
     ItemDoc.quantity := Some (orN (ItemDoc.quantity item) 0);
     ItemDoc.unitPrice :=
       Some (orN (ItemDoc.unitPrice item) (orN (ItemDoc.price item) 0));
     ItemDoc.price :=
       Some (orN (ItemDoc.unitPrice item) (orN (ItemDoc.price item) 0));
     ItemDoc.totalPrice := Some (orN (ItemDoc.totalPrice item) 0);
     ItemDoc.costPrice := Some (orN (ItemDoc.costPrice item) 0);
     ItemDoc.cost := Some itemCost;
     ItemDoc.profit := Some itemProfit;
     ItemDoc.profitMargin := Some itemProfitMargin |}.

(** [items?.reduce((sum, item) => sum + (item.quantity || 0), 0) || 0]. *)
Definition itemsCountOf (items : option (list ItemDoc.t)) : Q :=
  match items with
  | Some l =>
      orQ (fold_left (fun sum item => sum + orN (ItemDoc.quantity item) 0)%Q
             l 0%Q) 0
  | None => 0%Q
  end.

(** [enhanceTransactionData] (lines 35-76). *)
Definition enhanceTransactionData (rt : Runtime) (transaction : TxnDoc.t)
  : TxnDoc.t :=
  let totalCost := orN (TxnDoc.totalCost transaction) 0 in
  let totalProfit :=
    orN (TxnDoc.totalProfit transaction)
      (TxnDoc.totalAmount transaction - totalCost) in
  let profitMargin :=
    orN (TxnDoc.profitMargin transaction)
      (if Qltb 0 (TxnDoc.totalAmount transaction)
       then (totalProfit / TxnDoc.totalAmount transaction) * 100
       else 0) in
  {| TxnDoc.id := TxnDoc.id transaction;
     TxnDoc.transactionNumber :=
       Some (orS (orOptS (TxnDoc.transactionNumber transaction)
                    (String.substring 0 8 <$> TxnDoc.id transaction))
               ("TXN-" +:+ numberToString rt (inject_Z (dateNow rt))));
     TxnDoc.status := TxnDoc.status transaction;
     TxnDoc.paymentMethod := TxnDoc.paymentMethod transaction;
     TxnDoc.cashierName :=
       Some (orS (orOptS (TxnDoc.cashierName transaction)
                    (TxnDoc.cashierIdName transaction))
               "Unknown Cashier");
     TxnDoc.cashierIdName := TxnDoc.cashierIdName transaction;
     TxnDoc.customerName :=
       Some (orS (TxnDoc.customerName transaction) "Walk-in Customer");
     TxnDoc.totalAmount := TxnDoc.totalAmount transaction;
     TxnDoc.totalCost := Some totalCost;
     TxnDoc.totalProfit := Some totalProfit;
     TxnDoc.profitMargin := Some profitMargin;
     TxnDoc.cost := Some totalCost;
     TxnDoc.profit := Some totalProfit;
     TxnDoc.itemsCount := Some (itemsCountOf (TxnDoc.items transaction));
     TxnDoc.saleDate :=
       match TxnDoc.saleDate transaction with
       | Some d => Some d
       | None => TxnDoc.createdAt transaction
       end;
     TxnDoc.createdAt := TxnDoc.createdAt transaction;
     TxnDoc.updatedAt := TxnDoc.updatedAt transaction;
     TxnDoc.items :=
       Some (map enhanceItem (defaultTo (TxnDoc.items transaction) [])) |}.

(** The object built for each transaction of a page by the handler of
    [GET /] (lines 159-199).  [_id.toString()] is evaluated only when the
    transaction has no number, and throws when there is no [_id]. *)
Definition enhanceListed (transaction : TxnDoc.t) : JsError + TxnDoc.t :=
  let totalCost := orN (TxnDoc.totalCost transaction) 0 in
  let totalProfit :=
    orN (TxnDoc.totalProfit transaction)
      (TxnDoc.totalAmount transaction - totalCost) in
  let profitMargin :=
    orN (TxnDoc.profitMargin transaction)
      (if Qltb 0 (TxnDoc.totalAmount transaction)
       then (totalProfit / TxnDoc.totalAmount transaction) * 100
       else 0) in
  let number :=
    if truthyS (TxnDoc.transactionNumber transaction)
    then inr (TxnDoc.transactionNumber transaction)
    else match TxnDoc.id transaction with
         | Some i => inr (Some (String.substring 0 8 i))
         | None =>
             inl {| err_message :=
                      "Cannot read properties of undefined (reading 'toString')"
                 |}
         end in
  match number with
  | inl e => inl e
  | inr transactionNumber =>
      inr {| TxnDoc.id := TxnDoc.id transaction;
             TxnDoc.transactionNumber := transactionNumber;
             TxnDoc.status := TxnDoc.status transaction;
             TxnDoc.paymentMethod := TxnDoc.paymentMethod transaction;
             TxnDoc.cashierName :=
               Some (orS (TxnDoc.cashierName transaction) "Unknown Cashier");
             TxnDoc.cashierIdName := TxnDoc.cashierIdName transaction;
             TxnDoc.customerName :=
               Some (orS (TxnDoc.customerName transaction)
                       "Walk-in Customer");
             TxnDoc.totalAmount := TxnDoc.totalAmount transaction;
             TxnDoc.totalCost := Some totalCost;
             TxnDoc.totalProfit := Some totalProfit;
             TxnDoc.profitMargin := Some profitMargin;
             TxnDoc.cost := Some totalCost;
             TxnDoc.profit := Some totalProfit;
             TxnDoc.itemsCount :=
               Some (itemsCountOf (TxnDoc.items transaction));
             TxnDoc.saleDate :=
               match TxnDoc.saleDate transaction with
               | Some d => Some d
               | None => TxnDoc.createdAt transaction
               end;
             TxnDoc.createdAt := TxnDoc.createdAt transaction;
             TxnDoc.updatedAt := TxnDoc.updatedAt transaction;
             TxnDoc.items :=
               Some (map enhanceItem
                       (defaultTo (TxnDoc.items transaction) [])) |}
  end.

(** The stored form of a line priced by the sale handler and of the
    transaction it builds: the fields given to the constructor are all
    present, the display fields are not. *)
Definition docOfLine (l : Line.t) : ItemDoc.t :=
  {| ItemDoc.productName := Some (Line.productName l);
     ItemDoc.category := Some (Line.category l);
     ItemDoc.barcode := Some (Line.barcode l);
     ItemDoc.quantity := Some (Line.quantity l);
     ItemDoc.unitPrice := Some (Line.unitPrice l);
     ItemDoc.price := Some (Line.price l);
     ItemDoc.totalPrice := Some (Line.totalPrice l);
     ItemDoc.costPrice := Some (Line.costPrice l);
     ItemDoc.cost := None;
     ItemDoc.profit := Some (Line.profit l);
     ItemDoc.profitMargin := Some (Line.profitMargin l) |}.

Definition docOf (id : string) (createdAt : Z) (t : Txn.t) : TxnDoc.t :=
  {| TxnDoc.id := Some id;
     TxnDoc.transactionNumber := Some (Txn.transactionNumber t);
     TxnDoc.status := Some (Txn.status t);
     TxnDoc.paymentMethod := Some (Txn.paymentMethod t);
     TxnDoc.cashierName := Txn.cashierName t;
     TxnDoc.cashierIdName := None;
     TxnDoc.customerName := Some (Txn.customerName t);
     TxnDoc.totalAmount := Txn.totalAmount t;
     TxnDoc.totalCost := Some (Txn.totalCost t);
     TxnDoc.totalProfit := Some (Txn.totalProfit t);
     TxnDoc.profitMargin := Some (Txn.profitMargin t);
     TxnDoc.cost := None;
     TxnDoc.profit := None;
     TxnDoc.itemsCount := None;
     TxnDoc.saleDate := Some (Txn.saleDate t);
     TxnDoc.createdAt := Some createdAt;
     TxnDoc.updatedAt := Some createdAt;
     TxnDoc.items := Some (map docOfLine (Txn.items t)) |}.

(** Two optional numbers that are both absent, or both present and equal. *)
Definition sameNumber (x y : option Q) : Prop := option_Forall2 Qeq x y.

(** Two lines, and two transactions, that agree on every field, numbers
    being compared as numbers. *)
Definition sameItem (a b : ItemDoc.t) : Prop :=
  ItemDoc.productName a = ItemDoc.productName b
  /\ ItemDoc.category a = ItemDoc.category b
  /\ ItemDoc.barcode a = ItemDoc.barcode b
  /\ sameNumber (ItemDoc.quantity a) (ItemDoc.quantity b)
  /\ sameNumber (ItemDoc.unitPrice a) (ItemDoc.unitPrice b)
  /\ sameNumber (ItemDoc.price a) (ItemDoc.price b)
  /\ sameNumber (ItemDoc.totalPrice a) (ItemDoc.totalPrice b)
  /\ sameNumber (ItemDoc.costPrice a) (ItemDoc.costPrice b)
  /\ sameNumber (ItemDoc.cost a) (ItemDoc.cost b)
  /\ sameNumber (ItemDoc.profit a) (ItemDoc.profit b)
  /\ sameNumber (ItemDoc.profitMargin a) (ItemDoc.profitMargin b).

Definition sameDoc (a b : TxnDoc.t) : Prop :=
  TxnDoc.id a = TxnDoc.id b
  /\ TxnDoc.transactionNumber a = TxnDoc.transactionNumber b
  /\ TxnDoc.status a = TxnDoc.status b
  /\ TxnDoc.paymentMethod a = TxnDoc.paymentMethod b
  /\ TxnDoc.cashierName a = TxnDoc.cashierName b
  /\ TxnDoc.cashierIdName a = TxnDoc.cashierIdName b
  /\ TxnDoc.customerName a = TxnDoc.customerName b
  /\ TxnDoc.totalAmount a == TxnDoc.totalAmount b
  /\ sameNumber (TxnDoc.totalCost a) (TxnDoc.totalCost b)
  /\ sameNumber (TxnDoc.totalProfit a) (TxnDoc.totalProfit b)
  /\ sameNumber (TxnDoc.profitMargin a) (TxnDoc.profitMargin b)
  /\ sameNumber (TxnDoc.cost a) (TxnDoc.cost b)
  /\ sameNumber (TxnDoc.profit a) (TxnDoc.profit b)
  /\ sameNumber (TxnDoc.itemsCount a) (TxnDoc.itemsCount b)
  /\ TxnDoc.saleDate a = TxnDoc.saleDate b
  /\ TxnDoc.createdAt a = TxnDoc.createdAt b
  /\ TxnDoc.updatedAt a = TxnDoc.updatedAt b
  /\ option_Forall2 (Forall2 sameItem) (TxnDoc.items a) (TxnDoc.items b).

(** ** Status changes and deletion *)

(** The collection of stored transactions is a map from [_id] to document.
    The three handlers are modelled for an [id] that is an ObjectId string:
    on any other string the lookup throws and the [catch] block of the
    handler answers 500, which is not represented. *)

(** The JSON body of the replies of [GET /:id], [PATCH /:id/status] and
    [DELETE /:id]. *)
Inductive LedgerBody :=
  | Fetched (data : TxnDoc.t)
  | StatusUpdated (message : string) (data : TxnDoc.t)
  | Removed (message : string) (id : string)
  | Refused (message : string).

Record LedgerReply := {
  reply_status : Z;
  reply_body : LedgerBody
}.

Definition transactionNotFound : LedgerReply :=
  {| reply_status := 404; reply_body := Refused "Transaction not found" |}.

(** The handler of [GET /:id] (lines 322-351). *)
Definition getTransaction (rt : Runtime) (id : string) (ledger : gmap string TxnDoc.t)
  : LedgerReply :=
  match ledger !! id with
  | None => transactionNotFound
  | Some transaction =>
      {| reply_status := 200;
         reply_body := Fetched (enhanceTransactionData rt transaction) |}
  end.

(** The statuses accepted by [PATCH /:id/status] (line 660). *)
Definition acceptedStatuses : list string :=
  ["completed"; "pending"; "cancelled"; "refunded"].

(** [{ status, updatedAt: new Date() }] applied to a stored transaction. *)
Definition setStatus (status : string) (now : Z) (t : TxnDoc.t) : TxnDoc.t :=
  {| TxnDoc.id := TxnDoc.id t;
     TxnDoc.transactionNumber := TxnDoc.transactionNumber t;
     TxnDoc.status := Some status;
     TxnDoc.paymentMethod := TxnDoc.paymentMethod t;
     TxnDoc.cashierName := TxnDoc.cashierName t;
     TxnDoc.cashierIdName := TxnDoc.cashierIdName t;
     TxnDoc.customerName := TxnDoc.customerName t;
     TxnDoc.totalAmount := TxnDoc.totalAmount t;
     TxnDoc.totalCost := TxnDoc.totalCost t;
     TxnDoc.totalProfit := TxnDoc.totalProfit t;
     TxnDoc.profitMargin := TxnDoc.profitMargin t;
     TxnDoc.cost := TxnDoc.cost t;
     TxnDoc.profit := TxnDoc.profit t;
     TxnDoc.itemsCount := TxnDoc.itemsCount t;
     TxnDoc.saleDate := TxnDoc.saleDate t;
     TxnDoc.createdAt := TxnDoc.createdAt t;
     TxnDoc.updatedAt := Some now;
     TxnDoc.items := TxnDoc.items t |}.

(** The handler of [PATCH /:id/status] (lines 654-696); the four statuses
    it lets through are taken to be valid for the stored model. *)
Definition patchStatus (rt : Runtime) (id : string) (status : option string)
  (ledger : gmap string TxnDoc.t) : LedgerReply * gmap string TxnDoc.t :=
  match status with
  | Some s =>
      if arrayIncludes acceptedStatuses s
      then
        match ledger !! id with
        | None => (transactionNotFound, ledger)
        | Some t =>
            let transaction := setStatus s (dateNow rt) t in
            ({| reply_status := 200;
                reply_body :=
                  StatusUpdated ("Transaction status updated to " +:+ s)
                    (enhanceTransactionData rt transaction) |},
             <[id := transaction]> ledger)
        end
      else
        ({| reply_status := 400;
            reply_body :=
              Refused
                "Invalid status. Must be: completed, pending, cancelled, or refunded"
         |}, ledger)
  | None =>
      ({| reply_status := 400;
          reply_body :=
            Refused
              "Invalid status. Must be: completed, pending, cancelled, or refunded"
       |}, ledger)
  end.


(** ** Pagination of the transaction list *)

(** The page and the page size of [GET /] (lines 139-141), from the
    integers that [parseInt] made of the query parameters. *)
Definition pageNum (page : Z) : Z := Z.max 1 page.

Definition limitNum (limit : Z) : Z := Z.min 100 (Z.max 1 limit).

Definition skip (page limit : Z) : Z := (pageNum page - 1) * limitNum limit.

(** [.skip(skip).limit(limitNum)] on the matching transactions, taken in
    the order of the sort. *)
Definition pageOf {A : Type} (matching : list A) (page limit : Z) : list A :=
  take (Z.to_nat (limitNum limit)) (drop (Z.to_nat (skip page limit)) matching).

(** [Math.ceil(total / limitNum)] (line 208). *)
Definition totalPages (total limit : Z) : Z :=
  Qceiling (inject_Z total / inject_Z (limitNum limit)).

(** ** Sales statistics *)

(** One entry of the payment-method breakdown while it is accumulated. *)
Module Group.
Record t := {
  totalAmount : Q;
  count : Q;
  totalProfit : Q
}.
End Group.

(** The property names that every object inherits from [Object.prototype]. *)
Definition inheritedKey (k : string) : bool :=
  arrayIncludes
    ["constructor"; "__defineGetter__"; "__defineSetter__"; "hasOwnProperty";
     "__lookupGetter__"; "__lookupSetter__"; "isPrototypeOf";
     "propertyIsEnumerable"; "toString"; "valueOf"; "__proto__";
     "toLocaleString"] k.

(** [acc[method].totalAmount += amount] and the two updates that follow it,
    on an accumulator that has the key [method]. *)
Fixpoint addToGroup (method : string) (amount profit : Q)
  (acc : list (string * Group.t)) : list (string * Group.t) :=
  match acc with
  | [] => []
  | (m, g) :: rest =>
      if String.eqb m method
      then (m, {| Group.totalAmount := Group.totalAmount g + amount;
                  Group.count := Group.count g + 1;
                  Group.totalProfit := Group.totalProfit g + profit |})
           :: rest
      else (m, g) :: addToGroup method amount profit rest
  end.

(** One step of the reduction of lines 984-993.  The accumulator is a plain
    object, represented by its own entries in the order of their creation.
    A method that is the name of an inherited property finds that property
    instead of an entry of its own: none is created, and the updates go to
    the inherited object. *)
Definition groupByMethod (acc : list (string * Group.t)) (t : TxnDoc.t)
  : list (string * Group.t) :=
  let method := orS (TxnDoc.paymentMethod t) "cash" in
  if inheritedKey method then acc
  else
    let acc1 :=
      if bool_decide (method ∈ acc.*1) then acc
      else acc ++ [(method,
                    {| Group.totalAmount := 0;
                       Group.count := 0;
                       Group.totalProfit := 0 |})] in
    addToGroup method (orQ (TxnDoc.totalAmount t) 0)
      (orN (TxnDoc.totalProfit t) 0) acc1.

Definition paymentMethodStats (transactions : list TxnDoc.t)
  : list (string * Group.t) :=
  fold_left groupByMethod transactions [].

(** One entry of the breakdown in the response (lines 1006-1013). *)
Module MethodStats.
Record t := {
  method : string;
  totalAmount : Q;
  count : Q;
  totalProfit : Q;
  percentage : Q;
  profitMargin : Q
}.
End MethodStats.

Module Overview.
Record t := {
  totalRevenue : Q;
  totalCost : Q;
  totalProfit : Q;
  totalTransactions : Q;
  totalItemsSold : Q;
  averageTransactionValue : Q;
  profitMargin : Q
}.
End Overview.

Record Stats := {
  overview : Overview.t;
  methodStats : list MethodStats.t
}.

(** [t.items ? t.items.reduce((itemSum, item) => itemSum +
     (item.quantity || 1), 0) : 0]. *)
Definition itemsSoldIn (t : TxnDoc.t) : Q :=
  match TxnDoc.items t with
  | Some items =>
      fold_left (fun itemSum item =>
                   itemSum + orN (ItemDoc.quantity item) 1)%Q items 0%Q
  | None => 0%Q
  end.

(** The statistics computed by [GET /stats/comprehensive] from the
    transactions that match its filter (lines 973-1015). *)
Definition comprehensiveStats (transactions : list TxnDoc.t) : Stats :=
  let totalRevenue :=
    fold_left (fun sum t => sum + orQ (TxnDoc.totalAmount t) 0)%Q
      transactions 0%Q in
  let totalCost :=
    fold_left (fun sum t => sum + orN (TxnDoc.totalCost t) 0)%Q
      transactions 0%Q in
  let totalProfit := (totalRevenue - totalCost)%Q in
  let totalTransactions := inject_Z (Z.of_nat (length transactions)) in
  let totalItemsSold :=
    fold_left (fun sum t => sum + itemsSoldIn t)%Q transactions 0%Q in
  {| overview :=
       {| Overview.totalRevenue := totalRevenue;
          Overview.totalCost := totalCost;
          Overview.totalProfit := totalProfit;
          Overview.totalTransactions := totalTransactions;
          Overview.totalItemsSold := totalItemsSold;
          Overview.averageTransactionValue :=
            if Qltb 0 totalTransactions
            then totalRevenue / totalTransactions else 0;
          Overview.profitMargin :=
            if Qltb 0 totalRevenue
            then (totalProfit / totalRevenue) * 100 else 0 |};
     methodStats :=
       map (fun entry =>
              let data := snd entry in
              {| MethodStats.method := fst entry;
                 MethodStats.totalAmount := Group.totalAmount data;
                 MethodStats.count := Group.count data;
                 MethodStats.totalProfit := Group.totalProfit data;
                 MethodStats.percentage :=
                   if Qltb 0 totalRevenue
                   then (Group.totalAmount data / totalRevenue) * 100 else 0;
                 MethodStats.profitMargin :=
                   if Qltb 0 (Group.totalAmount data)
                   then (Group.totalProfit data / Group.totalAmount data)
                        * 100
                   else 0 |})
           (paymentMethodStats transactions) |}.

(** The payment method a transaction is counted under,
    [t.paymentMethod || 'cash']. *)
Definition methodOf (t : TxnDoc.t) : string :=
  orS (TxnDoc.paymentMethod t) "cash".

(** An entry of the breakdown before any transaction, and after one more
    transaction has been added to it (lines 987-991). *)
Definition emptyGroup : Group.t :=
  {| Group.totalAmount := 0; Group.count := 0; Group.totalProfit := 0 |}.

Definition credit (g : Group.t) (t : TxnDoc.t) : Group.t :=
  {| Group.totalAmount := Group.totalAmount g + orQ (TxnDoc.totalAmount t) 0;
     Group.count := Group.count g + 1;
     Group.totalProfit :=
       Group.totalProfit g + orN (TxnDoc.totalProfit t) 0 |}.

(** The transactions counted under the method [m], in the order of the
    list. *)
Definition paidBy (m : string) (transactions : list TxnDoc.t)
  : list TxnDoc.t :=
  List.filter (fun t => String.eqb (methodOf t) m) transactions.

(** ** Virtual fields and price rule of the product model *)

(** The virtuals [stockStatus] and [needsReorder] of src/models/products.js
    (lines 208-220).  The model of a product above has no [minStockLevel];
    the two virtuals take it as an argument. *)
Module Virtual.
Definition stockStatus (p : Product.t) (minStockLevel : Q) : string :=
  if Qeq_bool (Product.currentStock p) 0 then "out_of_stock"
  else if Qle_bool (Product.currentStock p) minStockLevel then "low_stock"
  else "in_stock".

Definition needsReorder (p : Product.t) (minStockLevel : Q) : bool :=
  Qle_bool (Product.currentStock p) minStockLevel.
End Virtual.

(** The price rule of the pre-save hook (lines 160-163): the error it passes
    to [next], if any. *)
Definition preSavePriceCheck (p : Product.t) : option JsError :=
  if Qltb (Product.minSellingPrice p) (Product.buyingPrice p)
  then Some {| err_message :=
                 "Selling price cannot be less than buying price" |}
  else None.

(** ** Further concrete data *)

(** The request [req] with another status and payment method. *)
Definition withStatusAndMethod (req : Req.t)
  (status paymentMethod : option string) : Req.t :=
  {| Req.saleType := Req.saleType req;
     Req.status := status;
     Req.paymentMethod := paymentMethod;
     Req.totalAmount := Req.totalAmount req;
     Req.amountPaid := Req.amountPaid req;
     Req.changeGiven := Req.changeGiven req;
     Req.subtotal := Req.subtotal req;
     Req.taxAmount := Req.taxAmount req;
     Req.discountAmount := Req.discountAmount req;
     Req.items := Req.items req;
     Req.customerName := Req.customerName req;
     Req.customerPhone := Req.customerPhone req;
     Req.shop := Req.shop req;
     Req.shopId := Req.shopId req;
     Req.shopName := Req.shopName req;
     Req.cashierId := Req.cashierId req;
     Req.cashierName := Req.cashierName req;
     Req.saleDate := Req.saleDate req;
     Req.notes := Req.notes req;
     Req.transactionNumber := Req.transactionNumber req;
     Req.userId := Req.userId req |}.

(** Scenario B, eleven units of a product that has ten, as a pending sale. *)
Definition requestPending : Req.t :=
  withStatusAndMethod requestB (Some "pending") (Some "cash").

(** Scenario A without a payment method. *)
Definition requestNoMethod : Req.t :=
  withStatusAndMethod requestA (Some "completed") None.

(** A transaction on record, built as the handler builds the one of
    scenario A, as a stored document, and a ledger that holds it. *)
Definition idT : string := "66a1b2c3d4e5f60718293a4b".
Definition idU : string := "66a1b2c3d4e5f60718293a4c".

Definition saleA : Txn.t :=
  newTransaction shippedRuntime requestA "completed" "cash"
    (finalShopIdOf requestA) (finalShopNameOf requestA) None None
    (addLine emptyAcc (mkItem idP 3) productP).

Definition storedSaleA : TxnDoc.t := docOf idT 1700000000000 saleA.

Definition ledgerA : gmap string TxnDoc.t := {[ idT := storedSaleA ]}.

(** A second stored sale, paid by mobile money: three units of P for a total
    of 20 set by the caller. *)
Definition saleM : Txn.t :=
  newTransaction shippedRuntime requestDiscounted "completed" "mpesa"
    (finalShopIdOf requestDiscounted) (finalShopNameOf requestDiscounted)
    None None (addLine emptyAcc (mkItem idP 3) productP).

Definition storedSaleM : TxnDoc.t := docOf idU 1700000000500 saleM.

Definition salesAM : list TxnDoc.t := [storedSaleA; storedSaleM].


(** * Properties *)

(** ** The loop over the cart *)

Section Loop.
Context (rt : Runtime) (req : Req.t) (status finalShopId : string)
        (productMap : gmap string Product.t).

Lemma processItems_app (l1 l2 : list Item.t) (acc : Acc) (db : Store) :
  processItems rt req status finalShopId productMap acc (l1 ++ l2) db =
  match processItems rt req status finalShopId productMap acc l1 db with
  | (Normal acc', db') =>
      processItems rt req status finalShopId productMap acc' l2 db'
  | (Throw e, db') => (Throw e, db')
  end.
Proof.
  revert acc db. induction l1 as [|item l1 IH]; intros acc db; simpl.
  - reflexivity.
  - unfold bind.
    destruct (processItem rt req status finalShopId productMap acc item db)
      as [[acc'|e] db']; [apply IH | reflexivity].
Qed.

Lemma processItem_not_found (acc : Acc) (item : Item.t) (db : Store) :
  getProduct productMap item = None ->
  processItem rt req status finalShopId productMap acc item db =
  (Throw {| err_message := productNotFoundMessage item |}, db).
Proof. intros H. unfold processItem. rewrite H. reflexivity. Qed.

Lemma processItem_over_stock (acc : Acc) (item : Item.t) (p : Product.t)
  (db : Store) :
  getProduct productMap item = Some p ->
  overStock status p item = true ->
  processItem rt req status finalShopId productMap acc item db =
  (Throw {| err_message := insufficientStockMessage rt p item |}, db).
Proof.
  intros H Ho. unfold processItem. rewrite H.
  unfold overStock in Ho. rewrite Ho. reflexivity.
Qed.

Lemma processItem_accepted (acc : Acc) (item : Item.t) (p : Product.t)
  (db : Store) :
  getProduct productMap item = Some p ->
  overStock status p item = false ->
  exists acc' db',
    processItem rt req status finalShopId productMap acc item db =
    (Normal acc', db')
    /\ transactions db' = transactions db
    /\ length (stockUpdates acc') =
       (length (stockUpdates acc) +
        if String.eqb status "completed" then 1 else 0)%nat.
Proof.
  intros H Ho. unfold processItem. rewrite H.
  unfold overStock in Ho. rewrite Ho.
  destruct (String.eqb status "completed").
  - unfold bind, findByIdAndUpdate, ret.
    destruct (Item.productId item); eexists _, _; (split; [reflexivity|]);
      simpl; rewrite length_app; simpl; auto.
  - eexists _, _. split; [reflexivity|]. simpl. split; auto with arith.
Qed.

(** The loop writes products only. *)
Lemma processItem_transactions (acc : Acc) (item : Item.t) (db : Store) :
  transactions
    (snd (processItem rt req status finalShopId productMap acc item db)) =
  transactions db.
Proof.
  unfold processItem.
  destruct (getProduct productMap item) as [p|]; [|reflexivity].
  destruct (String.eqb status "completed"); simpl.
  - destruct (Qltb (currentStock p) (itemQuantity item)); [reflexivity|].
    unfold bind, findByIdAndUpdate.
    destruct (Item.productId item); reflexivity.
  - reflexivity.
Qed.

Lemma processItems_transactions (l : list Item.t) :
  forall acc db,
    transactions
      (snd (processItems rt req status finalShopId productMap acc l db)) =
    transactions db.
Proof.
  induction l as [|item l IH]; intros acc db; simpl; [reflexivity|].
  unfold bind.
  pose proof (processItem_transactions acc item db) as H.
  destruct (processItem rt req status finalShopId productMap acc item db)
    as [[acc1|e] db1]; simpl in H.
  - rewrite IH. exact H.
  - exact H.
Qed.

(** A cart with a line that does not resolve never completes the loop. *)
Lemma processItems_unknown_throws (l : list Item.t) (item : Item.t) :
  item ∈ l ->
  getProduct productMap item = None ->
  forall acc db,
  exists e db',
    processItems rt req status finalShopId productMap acc l db = (Throw e, db').
Proof.
  induction l as [|x l IH]; intros Hin Hnone acc db.
  - inversion Hin.
  - simpl. unfold bind.
    destruct (processItem rt req status finalShopId productMap acc x db)
      as [[acc1|e] db1] eqn:E; [|eauto].
    apply elem_of_cons in Hin as [->|Hin].
    + rewrite (processItem_not_found acc x db Hnone) in E. discriminate.
    + apply (IH Hin Hnone).
Qed.

End Loop.

(** ** Defaults *)

Lemma orN_falsy (x : option Q) (d : Q) : truthyN x = false -> orN x d = d.
Proof.
  unfold truthyN, orN. destruct x as [q|]; [|reflexivity].
  intros H. apply negb_false_iff in H. now rewrite H.
Qed.

Lemma orN_truthy (q d : Q) : ~ q == 0 -> orN (Some q) d = q.
Proof.
  intros H. unfold orN. destruct (Qeq_bool q 0) eqn:E; [|reflexivity].
  apply Qeq_bool_iff in E. contradiction.
Qed.

Lemma orQ_eq (q : Q) : orQ q 0 == q.
Proof.
  unfold orQ. destruct (Qeq_bool q 0) eqn:E; [|reflexivity].
  apply Qeq_bool_iff in E. now rewrite E.
Qed.

Lemma orN_nonneg (x : option Q) (d : Q) :
  absentOrNonNegative x -> (0 <= d)%Q -> (0 <= orN x d)%Q.
Proof.
  unfold absentOrNonNegative, orN. destruct x as [q|]; [|auto].
  destruct (Qeq_bool q 0); auto.
Qed.

Lemma orQ_nonneg (q d : Q) : (0 <= q)%Q -> (0 <= d)%Q -> (0 <= orQ q d)%Q.
Proof. unfold orQ. destruct (Qeq_bool q 0); auto. Qed.

(** ** The stock written for an accepted line *)

Lemma Qltb_lt (x y : Q) : Qltb x y = true <-> (x < y)%Q.
Proof.
  unfold Qltb. rewrite negb_true_iff. split.
  - intros H. apply Qnot_le_lt. intros Hle.
    apply Qle_bool_iff in Hle. congruence.
  - intros H. destruct (Qle_bool y x) eqn:E; [|reflexivity].
    apply Qle_bool_iff in E. exfalso. exact (Qlt_not_le _ _ H E).
Qed.

Lemma Qltb_ge (x y : Q) : Qltb x y = false <-> (y <= x)%Q.
Proof.
  unfold Qltb. rewrite negb_false_iff. apply Qle_bool_iff.
Qed.

Lemma overStock_completed (p : Product.t) (item : Item.t) :
  overStock "completed" p item = true <->
  (currentStock p < itemQuantity item)%Q.
Proof. unfold overStock. simpl. apply Qltb_lt. Qed.

(** The stock written for a line that passed the check is the stock read
    before the loop minus the quantity of the line, and is not negative. *)
Lemma newStock_accepted (p : Product.t) (item : Item.t) :
  overStock "completed" p item = false ->
  newStock p item == currentStock p - itemQuantity item
  /\ (0 <= newStock p item)%Q.
Proof.
  unfold overStock, newStock. simpl. intros H. apply Qltb_ge in H.
  assert (0 <= currentStock p - itemQuantity item)%Q as Hnn.
  { unfold Qminus. rewrite <- Qle_minus_iff. exact H. }
  split.
  - apply Q.max_r. exact Hnn.
  - apply Q.max_le_iff. left. apply Qle_refl.
Qed.

(** ** The catch block *)

Lemma errorResponse_insufficient (rt : Runtime) (p : Product.t)
  (item : Item.t) :
  errorResponse {| err_message := insufficientStockMessage rt p item |} =
  insufficientStockResponse rt p item.
Proof.
  unfold errorResponse, insufficientStockMessage, insufficientStockResponse.
  cbn [err_message].
  replace (includes "Insufficient stock" _) with true; [reflexivity|].
  vm_compute. reflexivity.
Qed.

Lemma includes_after_not_found (t : string) :
  includes "Insufficient stock" ("Product not found with ID: " +:+ t) =
  includes "Insufficient stock" t.
Proof. cbn. reflexivity. Qed.

Lemma hex_not_I (c : ascii) : isHexDigit c = true -> c <> "I"%char.
Proof.
  destruct c as [[] [] [] [] [] [] [] []]; vm_compute; congruence.
Qed.

(** The text of an ObjectId cannot be mistaken for a stock error. *)
Lemma includes_allHex (s : string) :
  allHex s = true -> includes "Insufficient stock" s = false.
Proof.
  induction s as [|c s IH]; intros H.
  - reflexivity.
  - simpl in H. apply andb_prop in H as [Hc Hs].
    cbn [includes String.prefix].
    rewrite (IH Hs), orb_false_r.
    destruct (ascii_dec "I" c) as [<-|_]; [|reflexivity].
    exfalso. exact (hex_not_I _ Hc eq_refl).
Qed.

Lemma errorResponse_not_found (item : Item.t) :
  wellFormedId (Item.productId item) = true ->
  errorResponse {| err_message := productNotFoundMessage item |} =
  productNotFoundResponse item.
Proof.
  intros Hwf. unfold errorResponse, productNotFoundMessage. cbn [err_message].
  rewrite includes_after_not_found.
  assert (includes "Insufficient stock" (idText (Item.productId item))
          = false) as ->.
  { destruct (Item.productId item) as [s|]; simpl in *.
    - apply includes_allHex. unfold isObjectIdText in Hwf.
      apply andb_prop in Hwf. tauto.
    - reflexivity. }
  replace (includes "Product not found" _) with true; [reflexivity|].
  vm_compute. reflexivity.
Qed.

Lemma errorResponse_is_failure (e : JsError) :
  exists message code,
    res_body (errorResponse e) = Failure message (err_message e) code
    /\ res_status (errorResponse e) <> 201%Z.
Proof.
  unfold errorResponse.
  destruct (includes "Insufficient stock" (err_message e));
    [|destruct (includes "Product not found" (err_message e))];
    simpl; eexists _, _; split; try reflexivity; discriminate.
Qed.

(** ** Validated requests *)

(** The documents read before the loop are those of the catalog. *)
Lemma getProduct_productMapOf (req : Req.t) (db : Store) (item : Item.t) :
  item ∈ cartOf req ->
  getProduct (productMapOf req db) item = catalogLookup db item.
Proof.
  intros Hin. unfold getProduct, catalogLookup, productMapOf, findProducts.
  destruct (Item.productId item) as [id|] eqn:Hid; [|reflexivity].
  destruct (String.eqb id EmptyString) eqn:Hempty.
  - apply String.eqb_eq in Hempty as ->.
    assert (EmptyString ∉ productIds (cartOf req)) as Hnot.
    { unfold productIds. rewrite list_elem_of_omap. intros (x & _ & Hx).
      destruct (Item.productId x) as [s|]; simpl in Hx; [|discriminate].
      destruct (String.eqb s EmptyString) eqn:Hs; simpl in Hx;
        [discriminate|].
      injection Hx as ->. discriminate. }
    destruct (productIds (cartOf req)); [apply lookup_empty|].
    apply map_lookup_filter_None_2. right. intros x _. exact Hnot.
  - assert (id ∈ productIds (cartOf req)) as Hid_in.
    { unfold productIds. rewrite list_elem_of_omap. exists item.
      split; [exact Hin|]. rewrite Hid. simpl. rewrite Hempty. reflexivity. }
    destruct (productIds (cartOf req)) as [|i ids] eqn:Hids.
    { inversion Hid_in. }
    destruct (products db !! id) as [p|] eqn:Hp.
    + apply map_lookup_filter_Some_2; [exact Hp | exact Hid_in].
    + apply map_lookup_filter_None_2. left. exact Hp.
Qed.

Lemma accepted_inv (status : string) (db : Store) (item : Item.t) :
  accepted status db item = true ->
  exists p, catalogLookup db item = Some p /\ overStock status p item = false.
Proof.
  unfold accepted. destruct (catalogLookup db item) as [p|]; [|discriminate].
  intros H. exists p. split; [reflexivity|]. now apply negb_true_iff.
Qed.

(** A validated request runs the loop and then the end of the callback. *)
Lemma saleCallback_valid (rt : Runtime) (req : Req.t) (db : Store) :
  passesValidation req = true ->
  exists pm,
    Req.paymentMethod req = Some pm /\
    saleCallback rt req db =
    bind (processItems rt req (statusOf req) (finalShopIdOf req)
            (productMapOf req db) emptyAcc (cartOf req))
         (finaliseSale rt req (statusOf req) pm (finalShopIdOf req)
            (finalShopNameOf req)) db.
Proof.
  unfold passesValidation, saleCallback. intros H.
  apply andb_prop in H as [Hshop Hval]. rewrite Hshop. simpl.
  destruct (Req.paymentMethod req) as [pm|]; [|discriminate].
  exists pm. split; [reflexivity|].
  destruct (validationErrors req pm); [reflexivity | discriminate].
Qed.

(** Either the callback ran through, or nothing was written. *)
Lemma processSale_cases (rt : Runtime) (req : Req.t) (db : Store) :
  (exists pm acc working c pr t,
     passesValidation req = true
     /\ Req.paymentMethod req = Some pm
     /\ processItems rt req (statusOf req) (finalShopIdOf req)
          (productMapOf req db) emptyAcc (cartOf req) db
        = (Normal acc, working)
     /\ scope_totalCost rt = Bound c
     /\ scope_totalProfit rt = Bound pr
     /\ t = newTransaction rt req (statusOf req) pm (finalShopIdOf req)
              (finalShopNameOf req) c pr acc
     /\ processSale rt req db =
        (createdResponse t (finalShopIdOf req) (finalShopNameOf req) acc,
         {| products := products working;
            transactions := transactions db ++ [t] |}))
  \/ (exists res,
        processSale rt req db = (res, db) /\ res_status res <> 201%Z).
Proof.
  unfold processSale, withTransaction, saleCallback, passesValidation.
  destruct (truthyS (orOptS (Req.shopId req) (Req.shop req))); simpl;
    [|right; eexists; split; [reflexivity | discriminate]].
  destruct (Req.paymentMethod req) as [pm|]; simpl;
    [|right; eexists; split; [reflexivity | discriminate]].
  destruct (validationErrors req pm); simpl;
    [|right; eexists; split; [reflexivity | discriminate]].
  unfold bind. fold (cartOf req). fold (statusOf req).
  fold (finalShopIdOf req). fold (finalShopNameOf req).
  fold (productMapOf req db).
  pose proof (processItems_transactions rt req (statusOf req)
                (finalShopIdOf req) (productMapOf req db) (cartOf req)
                emptyAcc db) as Htx.
  destruct (processItems rt req (statusOf req) (finalShopIdOf req)
              (productMapOf req db) emptyAcc (cartOf req) db)
    as [[acc|e] w]; simpl in Htx |- *.
  2:{ right. eexists. split; [reflexivity|].
      destruct (errorResponse_is_failure e) as (m & c & _ & H). exact H. }
  unfold finaliseSale, readIdentifier, bind, saveTransaction, ret, throw.
  destruct (scope_totalCost rt) as [|c]; simpl.
  { right. eexists. split; [reflexivity | discriminate]. }
  destruct (scope_totalProfit rt) as [|pr]; simpl.
  { right. eexists. split; [reflexivity | discriminate]. }
  left. rewrite Htx. eexists pm, acc, w, c, pr, _. repeat split.
Qed.

(** The lines of a cart that are accepted run to completion: only the
    products collection is written, once per line of a completed sale. *)
Lemma processItems_all_accepted (rt : Runtime) (req : Req.t) (db0 : Store)
  (l : list Item.t) :
  Forall (fun i => i ∈ cartOf req) l ->
  Forall (fun i => accepted (statusOf req) db0 i = true) l ->
  forall acc db,
  exists acc' db',
    processItems rt req (statusOf req) (finalShopIdOf req)
      (productMapOf req db0) acc l db = (Normal acc', db')
    /\ transactions db' = transactions db
    /\ length (stockUpdates acc') =
       (length (stockUpdates acc) +
        if String.eqb (statusOf req) "completed" then length l else 0)%nat.
Proof.
  induction l as [|item l IH]; intros Hin Hacc acc db.
  - exists acc, db. simpl. repeat split; auto.
    destruct (String.eqb _ _); lia.
  - inversion Hin as [|? ? Hin1 Hin2]; subst.
    inversion Hacc as [|? ? Hacc1 Hacc2]; subst.
    apply accepted_inv in Hacc1 as (p & Hp & Ho).
    rewrite <- (getProduct_productMapOf req db0 item Hin1) in Hp.
    destruct (processItem_accepted rt req _ (finalShopIdOf req) _ acc item p
                db Hp Ho) as (acc1 & db1 & E1 & T1 & L1).
    destruct (IH Hin2 Hacc2 acc1 db1) as (acc2 & db2 & E2 & T2 & L2).
    exists acc2, db2. simpl. unfold bind at 1. rewrite E1.
    split; [exact E2|]. split; [congruence|].
    rewrite L2, L1. destruct (String.eqb _ _); simpl; lia.
Qed.

Lemma cart_parts_in_cart (req : Req.t) (pre post : list Item.t)
  (it : Item.t) :
  cartOf req = pre ++ it :: post ->
  Forall (fun i => i ∈ cartOf req) pre /\ it ∈ cartOf req.
Proof.
  intros ->. split.
  - apply Forall_forall. intros x Hx. apply elem_of_app. now left.
  - apply elem_of_app. right. left.
Qed.

(** The first line of the cart that fails does so on the stock check. *)
Lemma processSale_first_failure_stock (rt : Runtime) (req : Req.t)
  (db : Store) (pre post : list Item.t) (it : Item.t) (p : Product.t) :
  passesValidation req = true ->
  cartOf req = pre ++ it :: post ->
  Forall (fun i => accepted (statusOf req) db i = true) pre ->
  catalogLookup db it = Some p ->
  overStock (statusOf req) p it = true ->
  processSale rt req db = (insufficientStockResponse rt p it, db).
Proof.
  intros Hval Hcart Hpre Hp Ho.
  destruct (cart_parts_in_cart req pre post it Hcart) as [Hin_pre Hin_it].
  destruct (saleCallback_valid rt req db Hval) as (pm & _ & Hcb).
  destruct (processItems_all_accepted rt req db pre Hin_pre Hpre emptyAcc db)
    as (acc1 & db1 & E1 & _ & _).
  rewrite <- (getProduct_productMapOf req db it Hin_it) in Hp.
  unfold processSale, withTransaction. rewrite Hcb. unfold bind at 1.
  rewrite Hcart, processItems_app, E1. simpl. unfold bind at 1.
  rewrite (processItem_over_stock rt req _ _ _ acc1 it p db1 Hp Ho).
  rewrite errorResponse_insufficient. reflexivity.
Qed.

(** The first line of the cart that fails does not resolve to a product. *)
Lemma processSale_first_failure_unknown (rt : Runtime) (req : Req.t)
  (db : Store) (pre post : list Item.t) (it : Item.t) :
  passesValidation req = true ->
  cartOf req = pre ++ it :: post ->
  Forall (fun i => accepted (statusOf req) db i = true) pre ->
  catalogLookup db it = None ->
  wellFormedId (Item.productId it) = true ->
  processSale rt req db = (productNotFoundResponse it, db).
Proof.
  intros Hval Hcart Hpre Hp Hwf.
  destruct (cart_parts_in_cart req pre post it Hcart) as [Hin_pre Hin_it].
  destruct (saleCallback_valid rt req db Hval) as (pm & _ & Hcb).
  destruct (processItems_all_accepted rt req db pre Hin_pre Hpre emptyAcc db)
    as (acc1 & db1 & E1 & _ & _).
  rewrite <- (getProduct_productMapOf req db it Hin_it) in Hp.
  unfold processSale, withTransaction. rewrite Hcb. unfold bind at 1.
  rewrite Hcart, processItems_app, E1. simpl. unfold bind at 1.
  rewrite (processItem_not_found rt req _ _ _ acc1 it db1 Hp).
  rewrite (errorResponse_not_found it Hwf). reflexivity.
Qed.

(** ** The handler as written *)



(** With [totalCost] undeclared, a validated request whose lines are all
    accepted fails on the read of the identifier. *)
Lemma processSale_unbound_accepted (rt : Runtime) (req : Req.t) (db : Store) :
  scope_totalCost rt = Unbound ->
  passesValidation req = true ->
  Forall (fun i => accepted (statusOf req) db i = true) (cartOf req) ->
  processSale rt req db =
  ({| res_status := 500;
      res_body :=
        Failure "Failed to process transaction" "totalCost is not defined"
          "TRANSACTION_FAILED" |}, db).
Proof.
  intros Hscope Hv Hacc.
  destruct (saleCallback_valid rt req db Hv) as (pm & _ & E).
  destruct (processItems_all_accepted rt req db (cartOf req)
              ltac:(apply Forall_forall; auto) Hacc emptyAcc db)
    as (acc & w & El & _ & _).
  unfold processSale, withTransaction. rewrite E. unfold bind at 1.
  rewrite El. unfold finaliseSale, readIdentifier. rewrite Hscope.
  reflexivity.
Qed.

(** ** Failure of the stock check *)

(** C2. A later cart line that fails the stock check aborts the operation:
    the decrements made for the earlier lines inside the unit of work are
    discarded, and neither a product nor the transaction collection is
    changed. *)
Theorem sale_rolled_back_on_insufficient_stock (rt : Runtime) (req : Req.t)
  (db : Store) (pre post : list Item.t) (it : Item.t) (p : Product.t) :
  passesValidation req = true ->
  statusOf req = "completed" ->
  cartOf req = pre ++ it :: post ->
  Forall (fun i => accepted "completed" db i = true) pre ->
  catalogLookup db it = Some p ->
  (currentStock p < itemQuantity it)%Q ->
  (exists acc working,
     processItems rt req "completed" (finalShopIdOf req) (productMapOf req db)
       emptyAcc pre db = (Normal acc, working)
     /\ length (stockUpdates acc) = length pre)
  /\ res_status (fst (processSale rt req db)) = 400%Z
  /\ res_code (fst (processSale rt req db)) = Some "INSUFFICIENT_STOCK"
  /\ products (snd (processSale rt req db)) = products db
  /\ transactions (snd (processSale rt req db)) = transactions db.
Proof.
  intros Hval Hst Hcart Hpre Hp Hlt.
  split.
  - destruct (cart_parts_in_cart req pre post it Hcart) as [Hin_pre _].
    rewrite <- Hst in Hpre.
    destruct (processItems_all_accepted rt req db pre Hin_pre Hpre emptyAcc db)
      as (acc & w & E & _ & L).
    rewrite Hst in E, L. exists acc, w. split; [exact E|]. simpl in L. exact L.
  - apply overStock_completed in Hlt. rewrite <- Hst in Hpre, Hlt.
    rewrite (processSale_first_failure_stock rt req db pre post it p
               Hval Hcart Hpre Hp Hlt).
    repeat split.
Qed.

Lemma sale_rolled_back_on_insufficient_stock_witness :
  (exists acc working,
     processItems shippedRuntime requestPR "completed" (finalShopIdOf requestPR)
       (productMapOf requestPR storePR) emptyAcc [mkItem idP 2] storePR
     = (Normal acc, working)
     /\ length (stockUpdates acc) = length [mkItem idP 2])
  /\ res_status (fst (processSale shippedRuntime requestPR storePR)) = 400%Z
  /\ res_code (fst (processSale shippedRuntime requestPR storePR))
     = Some "INSUFFICIENT_STOCK"
  /\ products (snd (processSale shippedRuntime requestPR storePR))
     = products storePR
  /\ transactions (snd (processSale shippedRuntime requestPR storePR))
     = transactions storePR.
Proof.
  apply (sale_rolled_back_on_insufficient_stock shippedRuntime requestPR
           storePR [mkItem idP 2] [] (mkItem idR 5) productR).
  - vm_compute. reflexivity.
  - reflexivity.
  - reflexivity.
  - repeat constructor.
  - vm_compute. reflexivity.
  - vm_compute. reflexivity.
Defined.

(** Inside the unit of work of [requestPR] the first line has already taken
    two units of P when the second line is refused. *)
Lemma requestPR_working_store :
  exists acc working,
    processItems shippedRuntime requestPR "completed" (finalShopIdOf requestPR)
      (productMapOf requestPR storePR) emptyAcc [mkItem idP 2] storePR
    = (Normal acc, working)
    /\ stockOf storePR idP = Some 10%Q
    /\ stockOf working idP = Some 8%Q.
Proof.
  eexists _, _. split; [vm_compute; reflexivity|].
  vm_compute. split; reflexivity.
Qed.

(** C5, counterexample. A completed sale whose second line asks for eleven
    units of a product that has ten, and whose first line has an identifier
    unknown to the catalog, is answered 404 PRODUCT_NOT_FOUND, not 400
    INSUFFICIENT_STOCK. *)
Lemma overstock_line_after_unknown_product :
  mkItem idP 11 ∈ cartOf requestXB
  /\ statusOf requestXB = "completed"
  /\ passesValidation requestXB = true
  /\ catalogLookup storeA (mkItem idP 11) = Some productP
  /\ (Product.currentStock productP < 11)%Q
  /\ res_status (fst (processSale shippedRuntime requestXB storeA)) = 404%Z
  /\ res_code (fst (processSale shippedRuntime requestXB storeA))
     = Some "PRODUCT_NOT_FOUND".
Proof.
  split; [right; left|]. vm_compute. repeat split.
Qed.

(** C5, as amended. In a validated completed sale whose identifiers are all
    ObjectId strings, the first line that fails, when it fails because it
    asks for a quantity [q] above the stock of its product, makes the
    handler answer 400 with code INSUFFICIENT_STOCK and a message carrying
    the name of the product, its stock as the available quantity and [q] as
    the requested quantity; the store, hence the stock, is unchanged. *)
Theorem insufficient_stock_rejected (rt : Runtime) (req : Req.t) (db : Store)
  (pre post : list Item.t) (it : Item.t) (p : Product.t) (q : Q) :
  passesValidation req = true ->
  statusOf req = "completed" ->
  wellFormedCart req ->
  cartOf req = pre ++ it :: post ->
  Forall (fun i => accepted "completed" db i = true) pre ->
  catalogLookup db it = Some p ->
  Item.quantity it = Some q ->
  (0 <= Product.currentStock p)%Q ->
  (Product.currentStock p < q)%Q ->
  exists available,
    available == Product.currentStock p
    /\ (available < q)%Q
    /\ processSale rt req db =
       ({| res_status := 400;
           res_body :=
             Failure "Stock validation failed"
               ("Insufficient stock for " +:+ Product.name p +:+
                ". Available: " +:+ numberToString rt available +:+
                ", Requested: " +:+ numberToString rt q)
               "INSUFFICIENT_STOCK" |}, db).
Proof.
  intros Hval Hst _ Hcart Hpre Hp Hq Hstock Hlt.
  assert (itemQuantity it = q) as HQ.
  { unfold itemQuantity. rewrite Hq. apply orN_truthy. intros Hz.
    rewrite Hz in Hlt. exact (Qlt_not_le _ _ Hlt Hstock). }
  assert (currentStock p == Product.currentStock p) as Hav
    by (unfold currentStock; apply orQ_eq).
  exists (currentStock p). split; [exact Hav|].
  split; [rewrite Hav; exact Hlt|].
  rewrite <- HQ. rewrite <- Hst in Hpre.
  apply (processSale_first_failure_stock rt req db pre post it p
           Hval Hcart Hpre Hp).
  rewrite Hst. apply overStock_completed. rewrite Hav, HQ. exact Hlt.
Qed.

Lemma insufficient_stock_rejected_witness :
  exists available,
    available == Product.currentStock productP
    /\ (available < 11)%Q
    /\ processSale shippedRuntime requestB storeA =
       ({| res_status := 400;
           res_body :=
             Failure "Stock validation failed"
               ("Insufficient stock for " +:+ Product.name productP +:+
                ". Available: " +:+
                numberToString shippedRuntime available +:+
                ", Requested: " +:+ numberToString shippedRuntime 11)
               "INSUFFICIENT_STOCK" |}, storeA).
Proof.
  apply (insufficient_stock_rejected shippedRuntime requestB storeA
           [] [] (mkItem idP 11) productP 11).
  - vm_compute. reflexivity.
  - reflexivity.
  - repeat constructor.
  - reflexivity.
  - constructor.
  - vm_compute. reflexivity.
  - reflexivity.
  - discriminate.
  - reflexivity.
Defined.

(** Scenario B, evaluated. *)
Lemma scenarioB_response :
  processSale shippedRuntime requestB storeA =
  ({| res_status := 400;
      res_body :=
        Failure "Stock validation failed"
          "Insufficient stock for Soda. Available: 10, Requested: 11"
          "INSUFFICIENT_STOCK" |}, storeA)
  /\ stockOf storeA idP = Some 10%Q.
Proof. vm_compute. split; reflexivity. Qed.

(** ** Lines that do not resolve to a product *)

(** C6, counterexample. A cart whose first line asks for more than the stock
    and whose second line has an identifier unknown to the catalog is
    answered 400 INSUFFICIENT_STOCK, not 404 PRODUCT_NOT_FOUND. *)
Lemma unknown_product_after_overstock_line :
  mkItem idX 1 ∈ cartOf requestBX
  /\ catalogLookup storeA (mkItem idX 1) = None
  /\ passesValidation requestBX = true
  /\ res_status (fst (processSale shippedRuntime requestBX storeA)) = 400%Z
  /\ res_code (fst (processSale shippedRuntime requestBX storeA))
     = Some "INSUFFICIENT_STOCK".
Proof.
  split; [right; left|]. vm_compute. repeat split.
Qed.

(** C6, as amended. A validated cart whose identifiers are all ObjectId
    strings and one of whose lines has an identifier that does not resolve to
    a catalog product always fails as a whole and leaves the store as it
    was; the answer is 404 with code PRODUCT_NOT_FOUND and a message naming
    the identifier when every line before it resolves and passes the stock
    check. *)
Theorem unknown_product_rejected (rt : Runtime) (req : Req.t) (db : Store)
  (pre post : list Item.t) (it : Item.t) :
  passesValidation req = true ->
  wellFormedCart req ->
  cartOf req = pre ++ it :: post ->
  catalogLookup db it = None ->
  (res_status (fst (processSale rt req db)) <> 201%Z
   /\ snd (processSale rt req db) = db)
  /\ (Forall (fun i => accepted (statusOf req) db i = true) pre ->
      processSale rt req db =
      ({| res_status := 404;
          res_body :=
            Failure "Product not found"
              ("Product not found with ID: " +:+ idText (Item.productId it))
              "PRODUCT_NOT_FOUND" |}, db)).
Proof.
  intros Hval Hcartwf Hcart Hnone.
  destruct (cart_parts_in_cart req pre post it Hcart) as [_ Hin].
  assert (wellFormedId (Item.productId it) = true) as Hwf.
  { unfold wellFormedCart in Hcartwf. rewrite Forall_forall in Hcartwf.
    apply Hcartwf. exact Hin. }
  split.
  - destruct (saleCallback_valid rt req db Hval) as (pm & _ & Hcb).
    rewrite <- (getProduct_productMapOf req db it Hin) in Hnone.
    destruct (processItems_unknown_throws rt req (statusOf req)
                (finalShopIdOf req) (productMapOf req db) (cartOf req) it
                Hin Hnone emptyAcc db) as (e & db' & E).
    assert (processSale rt req db = (errorResponse e, db)) as ->.
    { unfold processSale, withTransaction. rewrite Hcb. unfold bind at 1.
      rewrite E. reflexivity. }
    destruct (errorResponse_is_failure e) as (m & c & _ & Hs). auto.
  - intros Hpre.
    exact (processSale_first_failure_unknown rt req db pre post it
             Hval Hcart Hpre Hnone Hwf).
Qed.

Lemma unknown_product_rejected_witness :
  (res_status (fst (processSale shippedRuntime requestC storeA)) <> 201%Z
   /\ snd (processSale shippedRuntime requestC storeA) = storeA)
  /\ processSale shippedRuntime requestC storeA =
     ({| res_status := 404;
         res_body :=
           Failure "Product not found"
             ("Product not found with ID: " +:+
              idText (Item.productId (mkItem idX 1)))
             "PRODUCT_NOT_FOUND" |}, storeA).
Proof.
  destruct (unknown_product_rejected shippedRuntime requestC storeA
              [mkItem idP 1] [] (mkItem idX 1)) as [Hfail Hfirst].
  - vm_compute. reflexivity.
  - repeat constructor.
  - reflexivity.
  - vm_compute. reflexivity.
  - split; [exact Hfail|]. apply Hfirst. repeat constructor.
Defined.

(** Scenario C, evaluated: the line for P is accepted inside the unit of
    work, the unknown line aborts it, and the stock of P is still 10. *)
Lemma scenarioC_response :
  processSale shippedRuntime requestC storeA =
  ({| res_status := 404;
      res_body :=
        Failure "Product not found"
          "Product not found with ID: 64b7f1a2c3d4e5f601234568"
          "PRODUCT_NOT_FOUND" |}, storeA)
  /\ stockOf storeA idP = Some 10%Q.
Proof. vm_compute. split; reflexivity. Qed.

(** ** Validation *)

(** The messages of the validation block, with the condition that puts each
    of them in the list. *)
Lemma elem_of_validationErrors (req : Req.t) (pm m : string) :
  m ∈ validationErrors req pm <->
  (negb (truthyS (Some pm)) = true /\ m = "Payment method is required")
  \/ (negb (arrayIncludes acceptedPaymentMethods (toLowerCase pm)) = true
      /\ m = "Payment method must be cash, mpesa, bank, or card")
  \/ (totalAmountInvalid (Req.totalAmount req) = true
      /\ m = "Valid total amount is required")
  \/ (itemsMissing (Req.items req) = true
      /\ m = "Transaction items are required")
  \/ (negb (truthyS (Req.cashierId req))
      || negb (truthyS (Req.cashierName req)) = true
      /\ m = "Cashier information is required").
Proof.
  unfold validationErrors. rewrite !elem_of_app.
  destruct (negb (truthyS (Some pm)));
  destruct (negb (arrayIncludes acceptedPaymentMethods (toLowerCase pm)));
  destruct (totalAmountInvalid (Req.totalAmount req));
  destruct (itemsMissing (Req.items req));
  destruct (negb (truthyS (Req.cashierId req))
            || negb (truthyS (Req.cashierName req)));
  rewrite ?elem_of_nil, ?list_elem_of_singleton; intuition congruence.
Qed.

(** A given message is in the list exactly when its own condition holds. *)
Ltac message_condition :=
  rewrite elem_of_validationErrors; split;
  [ intros [[H E]|[[H E]|[[H E]|[[H E]|[H E]]]]];
    try discriminate E; exact H
  | intros H;
    first
      [ left; split; [exact H | reflexivity]
      | right; left; split; [exact H | reflexivity]
      | right; right; left; split; [exact H | reflexivity]
      | right; right; right; left; split; [exact H | reflexivity]
      | right; right; right; right; split; [exact H | reflexivity] ] ].

Lemma required_message_iff (req : Req.t) (pm : string) :
  "Payment method is required" ∈ validationErrors req pm
  <-> negb (truthyS (Some pm)) = true.
Proof. message_condition. Qed.

Lemma accepted_message_iff (req : Req.t) (pm : string) :
  "Payment method must be cash, mpesa, bank, or card"
    ∈ validationErrors req pm
  <-> negb (arrayIncludes acceptedPaymentMethods (toLowerCase pm)) = true.
Proof. message_condition. Qed.

Lemma amount_message_iff (req : Req.t) (pm : string) :
  "Valid total amount is required" ∈ validationErrors req pm
  <-> totalAmountInvalid (Req.totalAmount req) = true.
Proof. message_condition. Qed.

Lemma items_message_iff (req : Req.t) (pm : string) :
  "Transaction items are required" ∈ validationErrors req pm
  <-> itemsMissing (Req.items req) = true.
Proof. message_condition. Qed.

Lemma cashier_message_iff (req : Req.t) (pm : string) :
  "Cashier information is required" ∈ validationErrors req pm
  <-> negb (truthyS (Req.cashierId req))
      || negb (truthyS (Req.cashierName req)) = true.
Proof. message_condition. Qed.

Lemma totalAmountInvalid_iff (x : option Q) :
  totalAmountInvalid x = true <-> ~ exists q, x = Some q /\ (0 < q)%Q.
Proof.
  unfold totalAmountInvalid, truthyN. destruct x as [q|]; simpl.
  - split.
    + intros H (q' & [= <-] & Hq).
      apply orb_prop in H as [H|H].
      * apply negb_true_iff, negb_false_iff, Qeq_bool_iff in H.
        rewrite H in Hq. exact (Qlt_irrefl _ Hq).
      * apply Qle_bool_iff in H. exact (Qlt_not_le _ _ Hq H).
    + intros H. apply orb_true_iff. right. apply Qle_bool_iff.
      apply Qnot_lt_le. intros Hq. apply H. eauto.
  - split; [intros _ (q & [=] & _) | reflexivity].
Qed.

Lemma truthyS_false_iff (x : option string) :
  truthyS x = false <-> x = None \/ x = Some EmptyString.
Proof.
  unfold truthyS. destruct x as [s|].
  - rewrite negb_false_iff, String.eqb_eq. split.
    + intros ->. now right.
    + intros [[=]|[= ->]]. reflexivity.
  - split; auto.
Qed.

Lemma arrayIncludes_iff (l : list string) (x : string) :
  arrayIncludes l x = true <-> x ∈ l.
Proof.
  unfold arrayIncludes. rewrite existsb_exists, list_elem_of_In. split.
  - intros (y & Hy & E). apply String.eqb_eq in E. now subst.
  - intros H. exists x. split; [exact H | apply String.eqb_refl].
Qed.

(** C7, counterexample. A request with no shop and a total amount of zero is
    answered with the shop message alone: the answer carries no list and does
    not report the total amount. *)
Lemma missing_shop_hides_other_violations :
  totalAmountInvalid (Req.totalAmount requestNoShop) = true
  /\ processSale shippedRuntime requestNoShop storeA =
     ({| res_status := 400; res_body := ShopRequired shopRequiredMessage |},
      storeA).
Proof. vm_compute. split; reflexivity. Qed.

(** C7, as amended. A request without a shop identifier is answered 400 with
    the single shop message, whatever else is wrong with it. With a shop and a
    payment method that is a string, the list holds one message for each of
    the other violations and no more, the payment method being compared in
    lower case, and a non-empty list is returned whole in one 400 answer. In
    both cases the store is unchanged. *)
Theorem validation_collects_errors (rt : Runtime) (req : Req.t) (db : Store) :
  (truthyS (orOptS (Req.shopId req) (Req.shop req)) = false ->
   processSale rt req db =
   ({| res_status := 400; res_body := ShopRequired shopRequiredMessage |}, db))
  /\ (truthyS (orOptS (Req.shopId req) (Req.shop req)) = true ->
      forall pm, Req.paymentMethod req = Some pm ->
       ("Payment method is required" ∈ validationErrors req pm
        <-> pm = EmptyString)
       /\ ("Payment method must be cash, mpesa, bank, or card"
             ∈ validationErrors req pm
           <-> toLowerCase pm ∉ acceptedPaymentMethods)
       /\ ("Valid total amount is required" ∈ validationErrors req pm
           <-> ~ exists q, Req.totalAmount req = Some q /\ (0 < q)%Q)
       /\ ("Transaction items are required" ∈ validationErrors req pm
           <-> Req.items req = None \/ Req.items req = Some [])
       /\ ("Cashier information is required" ∈ validationErrors req pm
           <-> (Req.cashierId req = None
                \/ Req.cashierId req = Some EmptyString)
               \/ (Req.cashierName req = None
                   \/ Req.cashierName req = Some EmptyString))
       /\ (validationErrors req pm <> [] ->
           processSale rt req db =
           ({| res_status := 400;
               res_body :=
                 ValidationFailed "Validation failed"
                   (validationErrors req pm) |}, db))).
Proof.
  split.
  - intros Hshop. unfold processSale, withTransaction, saleCallback.
    rewrite Hshop. reflexivity.
  - intros Hshop pm Hpm.
    split; [|split; [|split; [|split; [|split]]]].
    + rewrite required_message_iff. simpl.
      rewrite negb_true_iff, negb_false_iff. apply String.eqb_eq.
    + rewrite accepted_message_iff, negb_true_iff.
      rewrite <- arrayIncludes_iff.
      destruct (arrayIncludes acceptedPaymentMethods (toLowerCase pm));
        intuition congruence.
    + rewrite amount_message_iff. apply totalAmountInvalid_iff.
    + rewrite items_message_iff. unfold itemsMissing.
      destruct (Req.items req) as [[|? ?]|]; intuition congruence.
    + rewrite cashier_message_iff, orb_true_iff, !negb_true_iff.
      rewrite !truthyS_false_iff. reflexivity.
    + intros Hne. unfold processSale, withTransaction, saleCallback.
      rewrite Hshop, Hpm. simpl.
      destruct (validationErrors req pm); [congruence | reflexivity].
Qed.

Lemma validation_collects_errors_witness :
  processSale shippedRuntime requestNoShop storeA =
  ({| res_status := 400; res_body := ShopRequired shopRequiredMessage |},
   storeA)
  /\ processSale shippedRuntime requestInvalid storeA =
     ({| res_status := 400;
         res_body :=
           ValidationFailed "Validation failed"
             ["Payment method must be cash, mpesa, bank, or card";
              "Valid total amount is required";
              "Transaction items are required";
              "Cashier information is required"] |}, storeA).
Proof.
  split.
  - apply (validation_collects_errors shippedRuntime requestNoShop storeA).
    reflexivity.
  - destruct (validation_collects_errors shippedRuntime requestInvalid storeA)
      as [_ H].
    destruct (H eq_refl "cheque" eq_refl) as (_ & _ & _ & _ & _ & Hall).
    apply Hall. vm_compute. discriminate.
Defined.

(** ** Totals of a persisted transaction *)

Lemma sumQ_snoc (l : list Q) (x : Q) : sumQ (l ++ [x]) == sumQ l + x.
Proof.
  induction l as [|y l IH]; simpl.
  - ring.
  - rewrite IH. ring.
Qed.





(** ** Pricing of a line *)

(** C9, counterexample. A line with a unit price of -3 and a quantity of 2 is
    priced at -3 a unit, not at the catalog price of 8, and its total is
    -6. *)
Lemma negative_override_gives_negative_total :
  let l := priceLineItem itemNegativePrice productP in
  Line.unitPrice l == -3
  /\ ~ Line.unitPrice l == Product.minSellingPrice productP
  /\ Line.totalPrice l == -6
  /\ (Line.totalPrice l < 0)%Q.
Proof. vm_compute. repeat split; discriminate. Qed.

(** C9, as amended. The unit price of a priced line is the caller's
    [unitPrice] when it is present and not zero, else the caller's [price]
    when it is present and not zero, else the catalog's minimum selling price;
    the line total is the caller's total when it is present and not zero,
    else unit price times quantity; the line total is not negative when the
    numbers given by the caller and the catalog price are not negative; the
    margin is profit / total * 100 when the total is positive and 0
    otherwise. *)
Theorem line_item_pricing (item : Item.t) (p : Product.t) :
  let l := priceLineItem item p in
  (forall u, Item.unitPrice item = Some u -> ~ u == 0 -> Line.unitPrice l = u)
  /\ (truthyN (Item.unitPrice item) = false ->
      forall u, Item.price item = Some u -> ~ u == 0 -> Line.unitPrice l = u)
  /\ (truthyN (Item.unitPrice item) = false ->
      truthyN (Item.price item) = false ->
      Line.unitPrice l == Product.minSellingPrice p)
  /\ (forall total, Item.totalPrice item = Some total -> ~ total == 0 ->
      Line.totalPrice l = total)
  /\ (truthyN (Item.totalPrice item) = false ->
      Line.totalPrice l = (Line.unitPrice l * Line.quantity l)%Q)
  /\ (absentOrNonNegative (Item.unitPrice item) ->
      absentOrNonNegative (Item.price item) ->
      absentOrNonNegative (Item.totalPrice item) ->
      absentOrNonNegative (Item.quantity item) ->
      (0 <= Product.minSellingPrice p)%Q ->
      (0 <= Line.totalPrice l)%Q)
  /\ Line.profit l = (Line.totalPrice l - Line.cost l)%Q
  /\ ((0 < Line.totalPrice l)%Q ->
      Line.profitMargin l == Line.profit l / Line.totalPrice l * 100)
  /\ (~ (0 < Line.totalPrice l)%Q -> Line.profitMargin l = 0%Q).
Proof.
  cbn zeta. unfold priceLineItem, Line.cost.
  cbn [Line.unitPrice Line.totalPrice Line.quantity Line.profit
       Line.profitMargin Line.costPrice].
  repeat split.
  - intros u Hu Hnz. unfold itemPrice. rewrite Hu. now apply orN_truthy.
  - intros Hup u Hu Hnz. unfold itemPrice. rewrite (orN_falsy _ _ Hup), Hu.
    now apply orN_truthy.
  - intros Hup Hpr. unfold itemPrice.
    rewrite (orN_falsy _ _ Hup), (orN_falsy _ _ Hpr). apply orQ_eq.
  - intros total Ht Hnz. unfold itemTotalPrice. rewrite Ht.
    now apply orN_truthy.
  - intros Ht. unfold itemTotalPrice. now apply orN_falsy.
  - intros Hu Hpr Ht Hq Hmin. unfold itemTotalPrice.
    apply orN_nonneg; [exact Ht|].
    apply Qmult_le_0_compat.
    + unfold itemPrice. repeat apply orN_nonneg; auto.
      apply orQ_nonneg; [exact Hmin | apply Qle_refl].
    + unfold itemQuantity. apply orN_nonneg; [exact Hq | discriminate].
  - intros Hpos. apply Qltb_lt in Hpos. rewrite Hpos. reflexivity.
  - intros Hneg.
    destruct (Qltb 0 (itemTotalPrice item p)) eqn:E; [|reflexivity].
    apply Qltb_lt in E. contradiction.
Qed.

Lemma line_item_pricing_witness :
  (let l := priceLineItem (mkItem idP 3) productP in
   Line.unitPrice l == 8
   /\ Line.totalPrice l = (Line.unitPrice l * Line.quantity l)%Q
   /\ (0 <= Line.totalPrice l)%Q
   /\ Line.profitMargin l == Line.profit l / Line.totalPrice l * 100)
  /\ Line.unitPrice (priceLineItem itemOverride productP) = 9%Q.
Proof.
  split.
  - destruct (line_item_pricing (mkItem idP 3) productP)
      as (_ & _ & Hunit & _ & Htotal & Hsign & _ & Hmargin & _).
    split; [exact (Hunit eq_refl eq_refl)|].
    split; [exact (Htotal eq_refl)|].
    split.
    + apply Hsign; simpl; try exact I; discriminate.
    + apply Hmargin. reflexivity.
  - destruct (line_item_pricing itemOverride productP) as (Hunit & _).
    apply (Hunit 9%Q eq_refl). discriminate.
Defined.

(** ** The scenarios of the specification on the handler as written *)

(** C1. Scenario A is priced as specified, but the handler as written then
    reads [totalCost], which nothing declares: the unit of work aborts, the
    answer is 500 with code TRANSACTION_FAILED instead of 201, no transaction
    is saved and the stock of the product is still 10 instead of 7. *)
Theorem scenarioA_aborts_on_undeclared_identifier :
  (let l := priceLineItem (mkItem idP 3) productP in
   Line.unitPrice l == 8 /\ Line.totalPrice l == 24 /\ Line.cost l == 15
   /\ Line.profit l == 9 /\ Line.profitMargin l == 75 # 2)
  /\ processSale shippedRuntime requestA storeA =
     ({| res_status := 500;
         res_body :=
           Failure "Failed to process transaction" "totalCost is not defined"
             "TRANSACTION_FAILED" |}, storeA)
  /\ stockOf storeA idP = Some 10%Q.
Proof. vm_compute. repeat split. Qed.

(** X1. As long as [totalCost] is undeclared, no request whatever is
    answered 201 and every request leaves the store as it found it. *)
Lemma undeclared_identifier_aborts_every_sale (rt : Runtime) (req : Req.t)
  (db : Store) :
  scope_totalCost rt = Unbound ->
  res_status (fst (processSale rt req db)) <> 201%Z
  /\ snd (processSale rt req db) = db.
Proof.
  intros Hscope.
  destruct (processSale_cases rt req db)
    as [(pm & acc & w & c & pr & t & _ & _ & _ & Ec & _)|(res & E & Hne)].
  - congruence.
  - rewrite E. split; [exact Hne | reflexivity].
Qed.

(** C3. Scenario E: both lines of the cart pass the stock check against the
    same stock of 4, the second decrement starts again from 4, and no
    insufficient-stock error is raised; the handler as written answers 500
    TRANSACTION_FAILED, and with the identifiers declared it records the sale
    of 5 units and leaves a stock of 1. *)
Theorem scenarioE_lines_checked_independently :
  (exists acc working,
     processItems shippedRuntime requestE "completed" (finalShopIdOf requestE)
       (productMapOf requestE storeE) emptyAcc (cartOf requestE) storeE
     = (Normal acc, working)
     /\ map (fun u => (StockUpdate.oldStock u, StockUpdate.newStock u,
                       StockUpdate.quantitySold u)) (stockUpdates acc)
        = [(4, 2, 2); (4, 1, 3)]%Q
     /\ stockOf working idP = Some 1%Q)
  /\ res_code (fst (processSale shippedRuntime requestE storeE))
     = Some "TRANSACTION_FAILED"
  /\ res_status (fst (processSale declaredRuntime requestE storeE)) = 201%Z
  /\ stockOf (snd (processSale declaredRuntime requestE storeE)) idP
     = Some 1%Q.
Proof.
  split.
  - eexists _, _. split; [vm_compute; reflexivity|].
    vm_compute. split; reflexivity.
  - vm_compute. repeat split.
Qed.



(** * Further properties of the sale handler *)

(** A loop over the items of a sale that is not completed writes nothing. *)
Lemma processItems_uncompleted_store (rt : Runtime) (req : Req.t)
  (status finalShopId : string) (productMap : gmap string Product.t)
  (l : list Item.t) :
  String.eqb status "completed" = false ->
  forall acc db,
    snd (processItems rt req status finalShopId productMap acc l db) = db.
Proof.
  intros Hs. induction l as [|item l IH]; intros acc db; [reflexivity|].
  simpl. unfold bind at 1.
  assert (snd (processItem rt req status finalShopId productMap acc item db)
          = db) as H1.
  { unfold processItem. rewrite Hs. simpl.
    destruct (getProduct productMap item); reflexivity. }
  destruct (processItem rt req status finalShopId productMap acc item db)
    as [[acc1|e] db1]; simpl in H1; subst db1; [apply IH | reflexivity].
Qed.

(** X2. Whatever the request and the store, a response other than 201 comes
    with the store exactly as it was before the request: products, their
    histories and the transactions. *)
Theorem rejected_sale_leaves_store (rt : Runtime) (req : Req.t) (db : Store) :
  res_status (fst (processSale rt req db)) <> 201%Z ->
  snd (processSale rt req db) = db.
Proof.
  intros H.
  destruct (processSale_cases rt req db)
    as [(pm & acc & w & c & pr & t & _ & _ & _ & _ & _ & _ & E)|(res & E & _)];
    rewrite E in H |- *; simpl in *; [contradiction | reflexivity].
Qed.

Lemma rejected_sale_leaves_store_witness :
  snd (processSale shippedRuntime requestB storeA) = storeA.
Proof.
  apply (rejected_sale_leaves_store shippedRuntime requestB storeA).
  vm_compute. discriminate.
Defined.

(** X4. A sale whose status is not [completed] never writes to the products
    collection, whatever the response. *)
Theorem uncompleted_sale_keeps_catalog (rt : Runtime) (req : Req.t)
  (db : Store) :
  statusOf req <> "completed" ->
  products (snd (processSale rt req db)) = products db.
Proof.
  intros Hs. apply String.eqb_neq in Hs.
  destruct (processSale_cases rt req db)
    as [(pm & acc & w & c & pr & t & _ & _ & El & _ & _ & _ & E)|(res & E & _)];
    rewrite E; simpl; [|reflexivity].
  pose proof (processItems_uncompleted_store rt req (statusOf req)
                (finalShopIdOf req) (productMapOf req db) (cartOf req) Hs
                emptyAcc db) as H.
  rewrite El in H. simpl in H. now subst w.
Qed.

Lemma uncompleted_sale_keeps_catalog_witness :
  products (snd (processSale declaredRuntime requestPending storeA))
  = products storeA.
Proof.
  apply (uncompleted_sale_keeps_catalog declaredRuntime requestPending storeA).
  vm_compute. discriminate.
Defined.

(** X5. A sale whose status is not [completed] is never refused for stock:
    when it passes validation and its lines all name catalog products, the
    loop runs through whatever the quantities asked for and the stock at
    hand, and the handler as written then fails on the undeclared
    identifier: the answer is 500 TRANSACTION_FAILED, not 400
    INSUFFICIENT_STOCK, and the store is unchanged. *)
Theorem uncompleted_sale_is_not_refused_for_stock (rt : Runtime)
  (req : Req.t) (db : Store) :
  statusOf req <> "completed" ->
  passesValidation req = true ->
  Forall (fun i => is_Some (catalogLookup db i)) (cartOf req) ->
  scope_totalCost rt = Unbound ->
  processSale rt req db =
  ({| res_status := 500;
      res_body :=
        Failure "Failed to process transaction" "totalCost is not defined"
          "TRANSACTION_FAILED" |}, db).
Proof.
  intros Hs Hv Hall Hscope. apply String.eqb_neq in Hs.
  apply (processSale_unbound_accepted rt req db Hscope Hv).
  eapply Forall_impl; [exact Hall|]. intros i [p Hi].
  unfold accepted, overStock. rewrite Hi, Hs. reflexivity.
Qed.

Lemma uncompleted_sale_is_not_refused_for_stock_witness :
  (Product.currentStock productP < 11)%Q
  /\ mkItem idP 11 ∈ cartOf requestPending
  /\ processSale shippedRuntime requestPending storeA =
     ({| res_status := 500;
         res_body :=
           Failure "Failed to process transaction" "totalCost is not defined"
             "TRANSACTION_FAILED" |}, storeA).
Proof.
  split; [reflexivity|]. split; [left|].
  apply (uncompleted_sale_is_not_refused_for_stock shippedRuntime
           requestPending storeA).
  - vm_compute. discriminate.
  - vm_compute. reflexivity.
  - repeat constructor. exists productP. vm_compute. reflexivity.
  - reflexivity.
Defined.

(** X8. A request that names a shop but carries no payment method is not
    answered 400 with a list of validation errors: reading the method's
    lower-case form throws, the answer is 500 TRANSACTION_FAILED and the
    store is untouched. *)
Theorem missing_payment_method_is_server_error (rt : Runtime) (req : Req.t)
  (db : Store) :
  truthyS (orOptS (Req.shopId req) (Req.shop req)) = true ->
  Req.paymentMethod req = None ->
  processSale rt req db =
  ({| res_status := 500;
      res_body :=
        Failure "Failed to process transaction"
          "Cannot read properties of undefined (reading 'toLowerCase')"
          "TRANSACTION_FAILED" |}, db).
Proof.
  intros Hshop Hpm.
  unfold processSale, withTransaction, saleCallback.
  rewrite Hshop, Hpm. reflexivity.
Qed.

Lemma missing_payment_method_is_server_error_witness :
  processSale shippedRuntime requestNoMethod storeA =
  ({| res_status := 500;
      res_body :=
        Failure "Failed to process transaction"
          "Cannot read properties of undefined (reading 'toLowerCase')"
          "TRANSACTION_FAILED" |}, storeA).
Proof.
  apply (missing_payment_method_is_server_error shippedRuntime requestNoMethod
           storeA); reflexivity.
Defined.

(** X9. A line whose price is not set by the caller is sold at the catalog
    price: its unit price is the product's [minSellingPrice], its total is
    unit price times quantity, its profit is that total minus cost price
    times quantity, and the profit is not negative when the product passes
    the price rule of the pre-save hook and the quantity is not negative. *)
Theorem catalog_priced_line_profit (item : Item.t) (p : Product.t) :
  truthyN (Item.unitPrice item) = false ->
  truthyN (Item.price item) = false ->
  truthyN (Item.totalPrice item) = false ->
  let l := priceLineItem item p in
  Line.unitPrice l == Product.minSellingPrice p
  /\ Line.costPrice l == Product.buyingPrice p
  /\ Line.totalPrice l = (Line.unitPrice l * Line.quantity l)%Q
  /\ Line.profit l =
     (Line.unitPrice l * Line.quantity l
      - Line.costPrice l * Line.quantity l)%Q
  /\ (preSavePriceCheck p = None ->
      absentOrNonNegative (Item.quantity item) ->
      (0 <= Line.profit l)%Q).
Proof.
  intros Hu Hp Ht l.
  assert (Line.unitPrice l == Product.minSellingPrice p) as Hunit.
  { subst l. simpl. unfold itemPrice. rewrite (orN_falsy _ _ Hu).
    rewrite (orN_falsy _ _ Hp). unfold Product.sellingPrice. simpl.
    apply orQ_eq. }
  assert (Line.costPrice l == Product.buyingPrice p) as Hcost.
  { subst l. simpl. unfold itemCostPrice. apply orQ_eq. }
  assert (Line.totalPrice l = (Line.unitPrice l * Line.quantity l)%Q)
    as Htotal.
  { subst l. simpl. unfold itemTotalPrice. apply orN_falsy. exact Ht. }
  assert (Line.profit l =
          (Line.unitPrice l * Line.quantity l
           - Line.costPrice l * Line.quantity l)%Q) as Hprofit.
  { subst l. simpl. unfold itemProfit, itemCost, itemTotalPrice.
    rewrite (orN_falsy _ _ Ht). reflexivity. }
  split; [exact Hunit|]. split; [exact Hcost|]. split; [exact Htotal|].
  split; [exact Hprofit|].
  intros Hrule Hq. rewrite Hprofit, Hunit, Hcost.
  assert (0 <= Line.quantity l)%Q as Hq0.
  { subst l. simpl. unfold itemQuantity. apply orN_nonneg; [exact Hq|].
    discriminate. }
  unfold preSavePriceCheck in Hrule.
  destruct (Qltb _ _) eqn:E; [discriminate|]. apply Qltb_ge in E.
  assert (Product.minSellingPrice p * Line.quantity l
          - Product.buyingPrice p * Line.quantity l
          == (Product.minSellingPrice p - Product.buyingPrice p)
             * Line.quantity l) as -> by ring.
  apply Qmult_le_0_compat; [|exact Hq0].
  apply (Qplus_le_l _ _ (Product.buyingPrice p)). ring_simplify. exact E.
Qed.

Lemma catalog_priced_line_profit_witness :
  let l := priceLineItem (mkItem idP 3) productP in
  Line.unitPrice l == Product.minSellingPrice productP
  /\ Line.costPrice l == Product.buyingPrice productP
  /\ Line.totalPrice l = (Line.unitPrice l * Line.quantity l)%Q
  /\ Line.profit l =
     (Line.unitPrice l * Line.quantity l
      - Line.costPrice l * Line.quantity l)%Q
  /\ (0 <= Line.profit l)%Q.
Proof.
  destruct (catalog_priced_line_profit (mkItem idP 3) productP
              eq_refl eq_refl eq_refl) as (H1 & H2 & H3 & H4 & H5).
  split; [exact H1|]. split; [exact H2|]. split; [exact H3|].
  split; [exact H4|]. apply H5; [reflexivity | discriminate].
Defined.

(** * The display of stored transactions *)

Lemma Qltb_proper (x x' y y' : Q) :
  x == x' -> y == y' -> Qltb x y = Qltb x' y'.
Proof.
  intros Hx Hy. destruct (Qltb x' y') eqn:E.
  - apply Qltb_lt. apply Qltb_lt in E. now rewrite Hx, Hy.
  - apply Qltb_ge. apply Qltb_ge in E. now rewrite Hx, Hy.
Qed.

(** [(x || d) || d'] is [x || d] when the two defaults are the same number. *)
Lemma orN_stable (x : option Q) (d d' : Q) :
  d == d' -> orN (Some (orN x d)) d' == orN x d.
Proof.
  intros Hd. unfold orN at 1.
  destruct (Qeq_bool (orN x d) 0) eqn:E; [|reflexivity].
  destruct x as [q|]; simpl in *; [|now symmetry].
  destruct (Qeq_bool q 0) eqn:E'; [now symmetry|congruence].
Qed.

Lemma orN_Some_same (v d : Q) : d == v -> orN (Some v) d == v.
Proof.
  intros H. unfold orN. destruct (Qeq_bool v 0); [exact H | reflexivity].
Qed.

Lemma orN_Some_0 (v : Q) : orN (Some v) 0 == v.
Proof.
  unfold orN. destruct (Qeq_bool v 0) eqn:E; [|reflexivity].
  apply Qeq_bool_iff in E. now symmetry.
Qed.

Lemma orS_stable (x : option string) (d : string) :
  orS (Some (orS x d)) d = orS x d.
Proof.
  unfold orS at 1. destruct (String.eqb (orS x d) EmptyString) eqn:E;
    [|reflexivity].
  apply String.eqb_eq in E. destruct x as [s|]; simpl in *; [|congruence].
  destruct (String.eqb s EmptyString) eqn:E'; [congruence|].
  apply String.eqb_neq in E'. contradiction.
Qed.

Lemma orS_orOptS_stable (x y z : option string) (d : string) :
  d <> EmptyString ->
  orS (orOptS (Some (orS (orOptS x y) d)) z) d = orS (orOptS x y) d.
Proof.
  intros Hd.
  assert (orS (orOptS x y) d <> EmptyString) as Hne.
  { unfold orS. destruct (orOptS x y) as [s|]; [|exact Hd].
    destruct (String.eqb s EmptyString) eqn:E; [exact Hd|].
    now apply String.eqb_neq. }
  set (v := orS (orOptS x y) d) in *.
  apply String.eqb_neq in Hne. unfold orOptS, truthyS. rewrite Hne. simpl.
  rewrite Hne. reflexivity.
Qed.

Lemma sameNumber_Some (a b : Q) : a == b -> sameNumber (Some a) (Some b).
Proof. intros H. constructor. exact H. Qed.

(** The display of an item is a fixed point of the display. *)
Lemma enhanceItem_idempotent (item : ItemDoc.t) :
  sameItem (enhanceItem (enhanceItem item)) (enhanceItem item).
Proof.
  assert (orN (Some (orN (ItemDoc.costPrice item) 0)) 0 *
          orN (Some (orN (ItemDoc.quantity item) 0)) 0 ==
          orN (ItemDoc.costPrice item) 0 * orN (ItemDoc.quantity item) 0)
    as Hcost by (rewrite !orN_Some_0; reflexivity).
  assert (orN (Some (orN (ItemDoc.totalPrice item) 0)) 0
          == orN (ItemDoc.totalPrice item) 0) as Htotal
    by apply orN_Some_0.
  assert (orN (Some (orN (ItemDoc.profit item)
                       (orN (ItemDoc.totalPrice item) 0 -
                        orN (ItemDoc.costPrice item) 0 *
                        orN (ItemDoc.quantity item) 0)))
            (orN (Some (orN (ItemDoc.totalPrice item) 0)) 0 -
             orN (Some (orN (ItemDoc.costPrice item) 0)) 0 *
             orN (Some (orN (ItemDoc.quantity item) 0)) 0)
          == orN (ItemDoc.profit item)
               (orN (ItemDoc.totalPrice item) 0 -
                orN (ItemDoc.costPrice item) 0 *
                orN (ItemDoc.quantity item) 0)) as Hprofit.
  { apply orN_stable. rewrite Hcost, Htotal. reflexivity. }
  unfold sameItem, enhanceItem; cbn [ItemDoc.productName ItemDoc.category
    ItemDoc.barcode ItemDoc.quantity ItemDoc.unitPrice ItemDoc.price
    ItemDoc.totalPrice ItemDoc.costPrice ItemDoc.cost ItemDoc.profit
    ItemDoc.profitMargin].
  repeat split; try (rewrite orS_stable; reflexivity);
    try apply sameNumber_Some; try apply orN_Some_0; try exact Hcost;
    try exact Hprofit.
  - apply orN_Some_same, orN_Some_0.
  - apply orN_Some_same, orN_Some_0.
  - apply orN_stable.
    rewrite (Qltb_proper 0 0 _ _ (Qeq_refl 0) Htotal).
    destruct (Qltb 0 (orN (ItemDoc.totalPrice item) 0)); [|reflexivity].
    rewrite Hprofit, Htotal. reflexivity.
Qed.

Lemma itemsCount_enhanced (l : list ItemDoc.t) :
  forall a a' : Q,
    a == a' ->
    fold_left (fun sum item => sum + orN (ItemDoc.quantity item) 0)%Q
      (map enhanceItem l) a
    == fold_left (fun sum item => sum + orN (ItemDoc.quantity item) 0)%Q l a'.
Proof.
  induction l as [|x l IH]; intros a a' H; cbn [fold_left map]; [exact H|].
  apply IH.
  change (ItemDoc.quantity (enhanceItem x))
    with (Some (orN (ItemDoc.quantity x) 0)).
  rewrite H, orN_Some_0. reflexivity.
Qed.

Lemma orQ_proper (x y : Q) : x == y -> orQ x 0 == orQ y 0.
Proof. intros H. rewrite !orQ_eq. exact H. Qed.

(** X11. Displaying a transaction twice changes nothing: the result of
    [enhanceTransactionData] is a fixed point of it, field by field, lines
    included. *)
Theorem enhanceTransactionData_idempotent (rt : Runtime) (d : TxnDoc.t) :
  sameDoc (enhanceTransactionData rt (enhanceTransactionData rt d))
          (enhanceTransactionData rt d).
Proof.
  assert (orN (Some (orN (TxnDoc.totalCost d) 0)) 0
          == orN (TxnDoc.totalCost d) 0) as Hcost by apply orN_Some_0.
  assert (orN (Some (orN (TxnDoc.totalProfit d)
                       (TxnDoc.totalAmount d - orN (TxnDoc.totalCost d) 0)))
            (TxnDoc.totalAmount d -
             orN (Some (orN (TxnDoc.totalCost d) 0)) 0)
          == orN (TxnDoc.totalProfit d)
               (TxnDoc.totalAmount d - orN (TxnDoc.totalCost d) 0))
    as Hprofit.
  { apply orN_stable. rewrite Hcost. reflexivity. }
  assert (orN (Some (orN (TxnDoc.profitMargin d)
             (if Qltb 0 (TxnDoc.totalAmount d)
              then orN (TxnDoc.totalProfit d)
                     (TxnDoc.totalAmount d - orN (TxnDoc.totalCost d) 0)
                   / TxnDoc.totalAmount d * 100
              else 0)))
            (if Qltb 0 (TxnDoc.totalAmount d)
             then orN (Some (orN (TxnDoc.totalProfit d)
                               (TxnDoc.totalAmount d -
                                orN (TxnDoc.totalCost d) 0)))
                    (TxnDoc.totalAmount d -
                     orN (Some (orN (TxnDoc.totalCost d) 0)) 0)
                  / TxnDoc.totalAmount d * 100
             else 0)
          == orN (TxnDoc.profitMargin d)
             (if Qltb 0 (TxnDoc.totalAmount d)
              then orN (TxnDoc.totalProfit d)
                     (TxnDoc.totalAmount d - orN (TxnDoc.totalCost d) 0)
                   / TxnDoc.totalAmount d * 100
              else 0)) as Hmargin.
  { apply orN_stable.
    destruct (Qltb 0 (TxnDoc.totalAmount d)); [|reflexivity].
    rewrite Hprofit. reflexivity. }
  unfold sameDoc, enhanceTransactionData; cbn [TxnDoc.id
    TxnDoc.transactionNumber TxnDoc.status TxnDoc.paymentMethod
    TxnDoc.cashierName TxnDoc.cashierIdName TxnDoc.customerName
    TxnDoc.totalAmount TxnDoc.totalCost TxnDoc.totalProfit
    TxnDoc.profitMargin TxnDoc.cost TxnDoc.profit TxnDoc.itemsCount
    TxnDoc.saleDate TxnDoc.createdAt TxnDoc.updatedAt TxnDoc.items].
  repeat split; try reflexivity; try (rewrite orS_stable; reflexivity);
    try (apply sameNumber_Some; first [exact Hcost | exact Hprofit
                                      | exact Hmargin]).
  - f_equal. apply orS_orOptS_stable. discriminate.
  - f_equal. apply orS_orOptS_stable. discriminate.
  - apply sameNumber_Some. unfold itemsCountOf, defaultTo.
    destruct (TxnDoc.items d) as [l|]; [|reflexivity].
    apply orQ_proper, itemsCount_enhanced. reflexivity.
  - destruct (TxnDoc.saleDate d); [reflexivity|].
    destruct (TxnDoc.createdAt d); reflexivity.
  - constructor. unfold defaultTo.
    induction (match TxnDoc.items d with Some a => a | None => [] end)
      as [|x l IH]; simpl; constructor; [apply enhanceItem_idempotent|exact IH].
Qed.

(** X10. A line priced by the sale handler is displayed with the numbers that
    were stored, whatever the item and the product: quantity, unit price,
    total, cost price, profit and margin are unchanged, and the added [cost]
    is the cost price times the quantity. *)
Theorem priced_line_displayed_as_stored (item : Item.t) (p : Product.t) :
  let l := priceLineItem item p in
  let e := enhanceItem (docOfLine l) in
  sameNumber (ItemDoc.quantity e) (Some (Line.quantity l))
  /\ sameNumber (ItemDoc.unitPrice e) (Some (Line.unitPrice l))
  /\ sameNumber (ItemDoc.price e) (Some (Line.price l))
  /\ sameNumber (ItemDoc.totalPrice e) (Some (Line.totalPrice l))
  /\ sameNumber (ItemDoc.costPrice e) (Some (Line.costPrice l))
  /\ sameNumber (ItemDoc.cost e) (Some (Line.cost l))
  /\ sameNumber (ItemDoc.profit e) (Some (Line.profit l))
  /\ sameNumber (ItemDoc.profitMargin e) (Some (Line.profitMargin l)).
Proof.
  intros l e. subst e l. unfold enhanceItem, docOfLine, priceLineItem,
    Line.cost.
  cbn [ItemDoc.productName ItemDoc.category
    ItemDoc.barcode ItemDoc.quantity ItemDoc.unitPrice ItemDoc.price
    ItemDoc.totalPrice ItemDoc.costPrice ItemDoc.cost ItemDoc.profit
    ItemDoc.profitMargin Line.quantity Line.unitPrice Line.price
    Line.totalPrice Line.costPrice Line.profit Line.profitMargin].
  assert (orN (Some (itemTotalPrice item p)) 0 -
          orN (Some (itemCostPrice p)) 0 * orN (Some (itemQuantity item)) 0
          == itemProfit item p) as Hfallback.
  { rewrite !orN_Some_0. unfold itemProfit, itemCost. reflexivity. }
  assert (orN (Some (itemProfit item p))
            (orN (Some (itemTotalPrice item p)) 0 -
             orN (Some (itemCostPrice p)) 0 * orN (Some (itemQuantity item)) 0)
          == itemProfit item p) as Hprofit
    by (apply orN_Some_same; exact Hfallback).
  repeat split; apply sameNumber_Some; try apply orN_Some_0.
  - apply orN_Some_same. apply orN_Some_0.
  - apply orN_Some_same. apply orN_Some_0.
  - rewrite !orN_Some_0. reflexivity.
  - exact Hprofit.
  - apply orN_Some_same.
    rewrite (Qltb_proper 0 0 _ _ (Qeq_refl 0)
               (orN_Some_0 (itemTotalPrice item p))).
    destruct (Qltb 0 (itemTotalPrice item p)); [|reflexivity].
    rewrite Hprofit, orN_Some_0. reflexivity.
Qed.

(** X12. The display of a transaction stored by the sale handler shows the
    stored cost, and the stored profit unless that profit is zero: a stored
    profit of zero is replaced by the total amount minus the total cost,
    which is not zero when the amount sent by the client differs from the
    cost. *)
Theorem stored_zero_profit_is_recomputed (rt : Runtime) (id : string)
  (createdAt : Z) (t : Txn.t) :
  let e := enhanceTransactionData rt (docOf id createdAt t) in
  sameNumber (TxnDoc.cost e) (Some (Txn.totalCost t))
  /\ (~ Txn.totalProfit t == 0 -> TxnDoc.profit e = Some (Txn.totalProfit t))
  /\ (Txn.totalProfit t == 0 ->
      sameNumber (TxnDoc.profit e)
        (Some (Txn.totalAmount t - Txn.totalCost t)%Q)
      /\ (~ Txn.totalAmount t == Txn.totalCost t ->
          ~ sameNumber (TxnDoc.profit e) (Some (Txn.totalProfit t)))).
Proof.
  intros e. subst e. unfold enhanceTransactionData, docOf.
  cbn [TxnDoc.totalAmount TxnDoc.totalCost TxnDoc.totalProfit TxnDoc.cost
       TxnDoc.profit].
  split; [apply sameNumber_Some, orN_Some_0|]. split.
  - intros Hnz. f_equal. apply orN_truthy. exact Hnz.
  - intros Hz.
    assert (orN (Some (Txn.totalProfit t))
              (Txn.totalAmount t - orN (Some (Txn.totalCost t)) 0)
            == Txn.totalAmount t - Txn.totalCost t) as H.
    { unfold orN at 1. apply Qeq_bool_iff in Hz. rewrite Hz.
      rewrite orN_Some_0. reflexivity. }
    split; [apply sameNumber_Some; exact H|].
    intros Hne Hsame. inversion Hsame as [? ? Heq|]; subst.
    apply Hne. rewrite H, Hz in Heq.
    apply (Qplus_inj_r _ _ (- Txn.totalCost t)). rewrite Heq. ring.
Qed.

(** X13. The list of transactions and the single-transaction endpoint show
    the same thing: on a stored transaction (one that has an ObjectId) whose
    cashier reference is not populated, the object built by [GET /] is the
    one built by [enhanceTransactionData]. *)
Theorem listed_as_enhanced (rt : Runtime) (d : TxnDoc.t) (i : string) :
  TxnDoc.id d = Some i ->
  isObjectIdText i = true ->
  TxnDoc.cashierIdName d = None ->
  enhanceListed d = inr (enhanceTransactionData rt d).
Proof.
  intros Hid Hoid Hcashier. unfold enhanceListed, enhanceTransactionData.
  rewrite Hid, Hcashier. simpl.
  assert (String.substring 0 8 i <> EmptyString) as Hsub.
  { unfold isObjectIdText in Hoid. apply andb_prop in Hoid as [Hlen _].
    apply Nat.eqb_eq in Hlen.
    destruct i as [|c i]; [discriminate|]. simpl. discriminate. }
  assert (orOptS (TxnDoc.cashierName d) None = TxnDoc.cashierName d
          \/ truthyS (TxnDoc.cashierName d) = false) as Hc.
  { unfold orOptS. destruct (truthyS (TxnDoc.cashierName d)); auto. }
  assert (orS (orOptS (TxnDoc.cashierName d) None) "Unknown Cashier"
          = orS (TxnDoc.cashierName d) "Unknown Cashier") as ->.
  { unfold orOptS. destruct (truthyS (TxnDoc.cashierName d)) eqn:E;
      [reflexivity|].
    apply truthyS_false_iff in E as [-> | ->]; reflexivity. }
  destruct (truthyS (TxnDoc.transactionNumber d)) eqn:E.
  - f_equal. f_equal. unfold orOptS. rewrite E.
    destruct (TxnDoc.transactionNumber d) as [s|]; [|discriminate].
    simpl in *. apply negb_true_iff in E. rewrite E. reflexivity.
  - f_equal. f_equal. unfold orOptS. rewrite E. simpl.
    apply String.eqb_neq in Hsub. rewrite Hsub. reflexivity.
Qed.

Lemma listed_as_enhanced_witness :
  enhanceListed storedSaleA
  = inr (enhanceTransactionData declaredRuntime storedSaleA).
Proof.
  apply (listed_as_enhanced declaredRuntime storedSaleA idT); reflexivity.
Defined.

(** * Status changes and deletion *)

(** X14. A status change with one of the four accepted statuses on a stored
    transaction succeeds whatever the current status of the transaction (a
    refunded or cancelled sale can be set back to completed).  Reading the
    transaction afterwards shows what was shown before with the new status
    and modification date and nothing else changed; every other transaction
    is untouched. *)
Theorem status_patch_round_trip (rt : Runtime) (id s : string)
  (ledger : gmap string TxnDoc.t) (t : TxnDoc.t) :
  s ∈ acceptedStatuses ->
  ledger !! id = Some t ->
  reply_status (fst (patchStatus rt id (Some s) ledger)) = 200%Z
  /\ getTransaction rt id (snd (patchStatus rt id (Some s) ledger))
     = {| reply_status := 200;
          reply_body :=
            Fetched (setStatus s (dateNow rt)
                       (enhanceTransactionData rt t)) |}
  /\ (forall other, other <> id ->
        snd (patchStatus rt id (Some s) ledger) !! other = ledger !! other).
Proof.
  intros Hs Ht. apply arrayIncludes_iff in Hs.
  unfold patchStatus. rewrite Hs, Ht. cbn [fst snd reply_status].
  split; [reflexivity|]. split.
  - unfold getTransaction. rewrite lookup_insert_eq. reflexivity.
  - intros other Hne. apply lookup_insert_ne. congruence.
Qed.

Lemma status_patch_round_trip_witness :
  reply_status (fst (patchStatus declaredRuntime idT (Some "refunded") ledgerA))
  = 200%Z
  /\ getTransaction declaredRuntime idT
       (snd (patchStatus declaredRuntime idT (Some "refunded") ledgerA))
     = {| reply_status := 200;
          reply_body :=
            Fetched (setStatus "refunded" (dateNow declaredRuntime)
                       (enhanceTransactionData declaredRuntime storedSaleA))
       |}
  /\ (forall other, other <> idT ->
        snd (patchStatus declaredRuntime idT (Some "refunded") ledgerA)
          !! other = ledgerA !! other).
Proof.
  apply (status_patch_round_trip declaredRuntime idT "refunded" ledgerA
           storedSaleA).
  - apply arrayIncludes_iff. reflexivity.
  - reflexivity.
Defined.



(** X16. Two status changes in a row leave the ledger as the second alone
    would: the status of a transaction is the last one written, and no
    earlier status restricts the next. *)
Theorem status_patch_last_wins (rt : Runtime) (id s1 s2 : string)
  (ledger : gmap string TxnDoc.t) :
  s1 ∈ acceptedStatuses ->
  s2 ∈ acceptedStatuses ->
  snd (patchStatus rt id (Some s2)
         (snd (patchStatus rt id (Some s1) ledger)))
  = snd (patchStatus rt id (Some s2) ledger).
Proof.
  intros H1 H2. apply arrayIncludes_iff in H1. apply arrayIncludes_iff in H2.
  unfold patchStatus. rewrite H1, H2.
  destruct (ledger !! id) as [t|] eqn:Ht; cbn [fst snd].
  - rewrite lookup_insert_eq. cbn [fst snd]. rewrite insert_insert_eq.
    reflexivity.
  - rewrite Ht. reflexivity.
Qed.

Lemma status_patch_last_wins_witness :
  snd (patchStatus declaredRuntime idT (Some "completed")
         (snd (patchStatus declaredRuntime idT (Some "refunded") ledgerA)))
  = snd (patchStatus declaredRuntime idT (Some "completed") ledgerA).
Proof.
  apply (status_patch_last_wins declaredRuntime idT "refunded" "completed"
           ledgerA); apply arrayIncludes_iff; reflexivity.
Defined.



(** * Pagination of the transaction list *)

Lemma limitNum_bounds (limit : Z) : (1 <= limitNum limit <= 100)%Z.
Proof. unfold limitNum. lia. Qed.

(** The number of pages is the least [k] with [total <= k * limitNum]. *)
Lemma totalPages_spec (total limit : Z) :
  (total <= totalPages total limit * limitNum limit)%Z
  /\ ((totalPages total limit - 1) * limitNum limit < total)%Z.
Proof.
  unfold totalPages. pose proof (limitNum_bounds limit) as Hn.
  set (n := limitNum limit) in *.
  set (x := (inject_Z total / inject_Z n)%Q).
  assert (0 < inject_Z n)%Q as Hpos.
  { change (inject_Z 0 < inject_Z n)%Q. rewrite <- Zlt_Qlt. lia. }
  assert (x * inject_Z n == inject_Z total)%Q as Hx.
  { subst x. field. intros H. rewrite H in Hpos.
    exact (Qlt_irrefl _ Hpos). }
  split.
  - pose proof (Qle_ceiling x) as H.
    apply (Qmult_le_compat_r _ _ (inject_Z n)) in H;
      [|apply Qlt_le_weak; exact Hpos].
    rewrite Hx, <- inject_Z_mult in H. rewrite Zle_Qle. exact H.
  - pose proof (Qceiling_lt x) as H.
    apply (Qmult_lt_compat_r _ _ (inject_Z n) Hpos) in H.
    rewrite Hx, <- inject_Z_mult in H. rewrite Zlt_Qlt. exact H.
Qed.

Lemma pageOf_length {A : Type} (l : list A) (page limit : Z) :
  length (pageOf l page limit) =
  Nat.min (Z.to_nat (limitNum limit))
          (length l - Z.to_nat (skip page limit)).
Proof. unfold pageOf. rewrite length_take, length_drop. reflexivity. Qed.

(** X18. A page never holds more than 100 transactions, whatever limit is
    asked for, and a page number below 1 gives the first page, which is the
    head of the list. *)
Theorem page_size_bounded {A : Type} (l : list A) (page limit : Z) :
  (length (pageOf l page limit) <= 100)%nat
  /\ ((page <= 1)%Z ->
      pageOf l page limit = take (Z.to_nat (limitNum limit)) l)
  /\ ((100 <= limit)%Z -> pageOf l page limit = pageOf l page 100).
Proof.
  pose proof (limitNum_bounds limit) as Hn. split; [|split].
  - rewrite pageOf_length. lia.
  - intros Hp. unfold pageOf, skip, pageNum.
    replace (Z.max 1 page - 1)%Z with 0%Z by lia. reflexivity.
  - intros Hl. unfold pageOf, skip, limitNum.
    replace (Z.min 100 (Z.max 1 limit)) with 100%Z by lia. reflexivity.
Qed.

Lemma pages_prefix {A : Type} (l : list A) (limit : Z) (k : nat) :
  concat (map (fun p => pageOf l (Z.of_nat p) limit) (seq 1 k))
  = take (k * Z.to_nat (limitNum limit)) l.
Proof.
  pose proof (limitNum_bounds limit) as Hn.
  induction k as [|k IH]; [reflexivity|].
  rewrite seq_S, map_app, concat_app, IH. simpl. rewrite app_nil_r.
  unfold pageOf at 1, skip, pageNum.
  replace (Z.max 1 (Z.of_nat (S k)) - 1)%Z with (Z.of_nat k) by lia.
  rewrite Z2Nat.inj_mul, Nat2Z.id by lia.
  rewrite take_take_drop. f_equal. lia.
Qed.

(** X19. The pages 1 to [totalPages] of a list, one after the other, are the
    list: no transaction is skipped and none is shown twice. *)
Theorem pages_cover_the_list {A : Type} (l : list A) (limit : Z) :
  concat (map (fun p => pageOf l (Z.of_nat p) limit)
            (seq 1 (Z.to_nat (totalPages (Z.of_nat (length l)) limit))))
  = l.
Proof.
  rewrite pages_prefix. apply take_ge.
  destruct (totalPages_spec (Z.of_nat (length l)) limit) as [H _].
  pose proof (limitNum_bounds limit). nia.
Qed.

(** X20. A page from 1 on holds a transaction exactly when its number is at
    most [totalPages]: every page up to the last is non-empty and every page
    after it is empty; in particular there is no page at all for an empty
    list. *)
Theorem page_nonempty_iff {A : Type} (l : list A) (page limit : Z) :
  (1 <= page)%Z ->
  pageOf l page limit <> []
  <-> (page <= totalPages (Z.of_nat (length l)) limit)%Z.
Proof.
  intros Hp.
  destruct (totalPages_spec (Z.of_nat (length l)) limit) as [H1 H2].
  pose proof (limitNum_bounds limit) as Hn.
  assert (pageOf l page limit <> [] <->
          (0 < length (pageOf l page limit))%nat) as ->.
  { destruct (pageOf l page limit); simpl; split; intros; try lia;
      congruence. }
  rewrite pageOf_length. unfold skip, pageNum.
  replace (Z.max 1 page) with page by lia.
  split; intros H; [|nia].
  assert ((page - 1) * limitNum limit < Z.of_nat (length l))%Z by lia.
  nia.
Qed.

Lemma page_nonempty_iff_witness :
  pageOf [1; 2; 3; 4; 5]%Z 3 2 <> []
  <-> (3 <= totalPages (Z.of_nat (length [1; 2; 3; 4; 5]%Z)) 2)%Z.
Proof.
  apply (page_nonempty_iff [1; 2; 3; 4; 5]%Z 3 2). lia.
Defined.

(** * Sales statistics *)

Lemma count_fold {A : Type} (l : list A) :
  forall c : Q,
    fold_left (fun n _ => n + 1)%Q l c == c + inject_Z (Z.of_nat (length l)).
Proof.
  induction l as [|x l IH]; intros c; cbn [fold_left length].
  - simpl. ring.
  - rewrite IH, Nat2Z.inj_succ, <- Z.add_1_l, inject_Z_plus. ring.
Qed.

Lemma addToGroup_elem (m : string) (a p : Q) (acc : list (string * Group.t)) :
  NoDup acc.*1 ->
  forall k g',
    (k, g') ∈ addToGroup m a p acc
    <-> (k <> m /\ (k, g') ∈ acc)
        \/ (k = m /\ exists g,
              (m, g) ∈ acc
              /\ g' = {| Group.totalAmount := Group.totalAmount g + a;
                         Group.count := Group.count g + 1;
                         Group.totalProfit := Group.totalProfit g + p |}).
Proof.
  induction acc as [|[k0 g0] acc IH]; intros Hnd k g'; cbn [addToGroup].
  - split.
    + intros H. apply elem_of_nil in H. contradiction.
    + intros [[_ H]|(_ & g & H & _)]; apply elem_of_nil in H; contradiction.
  - rewrite fmap_cons in Hnd. apply NoDup_cons in Hnd as [Hk0 Hnd].
    cbn [fst] in Hk0.
    assert (forall g, (k0, g) ∉ acc) as Hfresh.
    { intros g Hg. apply Hk0. apply list_elem_of_fmap. exists (k0, g). auto. }
    destruct (String.eqb k0 m) eqn:E.
    + apply String.eqb_eq in E. subst k0. rewrite !elem_of_cons. split.
      * intros [[= -> ->]|H].
        -- right. split; [reflexivity|]. exists g0. split; [|reflexivity].
           apply elem_of_cons. left. reflexivity.
        -- left. split; [|right; exact H].
           intros ->. exact (Hfresh _ H).
      * intros [[Hne [[= -> ->]|H]]|(-> & g & Hg & ->)].
        -- contradiction.
        -- right. exact H.
        -- apply elem_of_cons in Hg as [[= ->]|Hg]; [left; reflexivity|].
           exfalso. exact (Hfresh _ Hg).
    + apply String.eqb_neq in E. rewrite !elem_of_cons, (IH Hnd). split.
      * intros [[= -> ->]|[[Hne H]|(-> & g & Hg & ->)]].
        -- left. split; [exact E|]. left. reflexivity.
        -- left. split; [exact Hne|]. right. exact H.
        -- right. split; [reflexivity|]. exists g. split; [|reflexivity].
           apply elem_of_cons. right. exact Hg.
      * intros [[Hne [[= -> ->]|H]]|(-> & g & Hg & ->)].
        -- left. reflexivity.
        -- right. left. auto.
        -- apply elem_of_cons in Hg as [[= -> ->]|Hg]; [contradiction|].
           right. right. split; [reflexivity|]. exists g. auto.
Qed.

Lemma addToGroup_keys (m : string) (a p : Q) (acc : list (string * Group.t)) :
  (addToGroup m a p acc).*1 = acc.*1.
Proof.
  induction acc as [|[k g] acc IH]; cbn [addToGroup]; [reflexivity|].
  destruct (String.eqb k m); rewrite !fmap_cons; [reflexivity|].
  now rewrite IH.
Qed.

(** One step of the breakdown: the method of the transaction gets an entry
    if it had none, and that entry, and no other, is credited. *)
Lemma groupByMethod_elem (acc : list (string * Group.t)) (t : TxnDoc.t) :
  inheritedKey (methodOf t) = false ->
  NoDup acc.*1 ->
  NoDup (groupByMethod acc t).*1
  /\ (forall m, m ∈ (groupByMethod acc t).*1 <-> m ∈ acc.*1 \/ m = methodOf t)
  /\ (forall k g',
        (k, g') ∈ groupByMethod acc t
        <-> (k <> methodOf t /\ (k, g') ∈ acc)
            \/ (k = methodOf t
                /\ exists g,
                     ((k, g) ∈ acc \/ ((k ∉ acc.*1) /\ g = emptyGroup))
                     /\ g' = credit g t)).
Proof.
  intros Hkey Hnd. unfold groupByMethod. fold (methodOf t). rewrite Hkey.
  destruct (bool_decide (methodOf t ∈ acc.*1)) eqn:E.
  - apply bool_decide_eq_true in E. rewrite addToGroup_keys.
    split; [exact Hnd|]. split.
    { intros m. split; [auto|]. intros [H| ->]; assumption. }
    intros k g'. rewrite (addToGroup_elem _ _ _ acc Hnd). split.
    + intros [H|(-> & g & Hg & ->)]; [left; exact H|].
      right. split; [reflexivity|]. exists g. split; [left; exact Hg|].
      reflexivity.
    + intros [H|(-> & g & [Hg|[Hno _]] & ->)]; [left; exact H| |].
      * right. split; [reflexivity|]. exists g. split; [exact Hg|].
        reflexivity.
      * contradiction.
  - apply bool_decide_eq_false in E.
    assert (NoDup (acc ++ [(methodOf t, emptyGroup)]).*1) as Hnd1.
    { rewrite fmap_app. apply NoDup_app. split; [exact Hnd|]. split.
      - intros x Hx Hx'. apply list_elem_of_singleton in Hx'. simpl in Hx'.
        congruence.
      - apply NoDup_singleton. }
    change {| Group.totalAmount := 0; Group.count := 0;
              Group.totalProfit := 0 |} with emptyGroup.
    rewrite addToGroup_keys. split; [exact Hnd1|]. split.
    { intros m. rewrite fmap_app, elem_of_app. simpl.
      rewrite list_elem_of_singleton. reflexivity. }
    intros k g'. rewrite (addToGroup_elem _ _ _ _ Hnd1). split.
    + intros [[Hne H]|(-> & g & Hg & ->)].
      * left. split; [exact Hne|].
        apply elem_of_app in H as [H|H]; [exact H|].
        apply list_elem_of_singleton in H. congruence.
      * right. split; [reflexivity|].
        apply elem_of_app in Hg as [Hg|Hg].
        -- exfalso. apply E. apply list_elem_of_fmap.
           exists (methodOf t, g). auto.
        -- apply list_elem_of_singleton in Hg. injection Hg as ->.
           exists emptyGroup. split; [right; auto | reflexivity].
    + intros [[Hne H]|(-> & g & [Hg|[_ ->]] & ->)].
      * left. split; [exact Hne|]. apply elem_of_app. left. exact H.
      * exfalso. apply E. apply list_elem_of_fmap.
        exists (methodOf t, g). auto.
      * right. split; [reflexivity|]. exists emptyGroup.
        split; [|reflexivity]. apply elem_of_app. right.
        apply list_elem_of_singleton. reflexivity.
Qed.

Lemma paidBy_cons (m : string) (t : TxnDoc.t) (l : list TxnDoc.t) :
  paidBy m (t :: l) =
  if String.eqb (methodOf t) m then t :: paidBy m l else paidBy m l.
Proof. reflexivity. Qed.

(** The breakdown after all the transactions: the keys are the methods met,
    each once, and the entry of a method is what it was at the start, or
    empty, credited with the transactions of that method in order. *)
Lemma paymentMethodStats_entries (l : list TxnDoc.t) :
  Forall (fun t => inheritedKey (methodOf t) = false) l ->
  forall acc,
    NoDup acc.*1 ->
    NoDup (fold_left groupByMethod l acc).*1
    /\ (forall m, m ∈ (fold_left groupByMethod l acc).*1
                  <-> m ∈ acc.*1 \/ m ∈ map methodOf l)
    /\ (forall m g,
          (m, g) ∈ fold_left groupByMethod l acc ->
          exists g0,
            ((m, g0) ∈ acc \/ ((m ∉ acc.*1) /\ g0 = emptyGroup))
            /\ g = fold_left credit (paidBy m l) g0).
Proof.
  induction 1 as [|t l Ht Hl IH]; intros acc Hnd.
  - cbn [fold_left]. split; [exact Hnd|]. split.
    { intros m. split; [auto|]. intros [H|H]; [exact H|].
      apply elem_of_nil in H. contradiction. }
    intros m g Hg. exists g. split; [left; exact Hg | reflexivity].
  - destruct (groupByMethod_elem acc t Ht Hnd) as (N1 & K1 & E1).
    destruct (IH (groupByMethod acc t) N1) as (N2 & K2 & E2).
    cbn [fold_left]. split; [exact N2|]. split.
    { intros m. rewrite K2, K1. cbn [map]. rewrite elem_of_cons. tauto. }
    intros m g Hg. destruct (E2 m g Hg) as (g1 & Hg1 & ->).
    rewrite paidBy_cons.
    destruct (String.eqb (methodOf t) m) eqn:Em.
    + apply String.eqb_eq in Em. subst m.
      destruct Hg1 as [Hin|[Hno _]].
      * apply E1 in Hin as [[Hne _]|(_ & g0 & Hg0 & ->)]; [contradiction|].
        exists g0. split; [exact Hg0 | reflexivity].
      * exfalso. apply Hno. apply K1. right. reflexivity.
    + apply String.eqb_neq in Em.
      destruct Hg1 as [Hin|[Hno ->]].
      * apply E1 in Hin as [[_ Hin]|(-> & _)]; [|contradiction].
        exists g1. split; [left; exact Hin | reflexivity].
      * exists emptyGroup. split; [|reflexivity]. right.
        split; [|reflexivity]. intros Hin. apply Hno. apply K1. left.
        exact Hin.
Qed.

Lemma credit_fold (l : list TxnDoc.t) :
  forall g0,
    Group.totalAmount (fold_left credit l g0) =
    fold_left (fun sum t => sum + orQ (TxnDoc.totalAmount t) 0)%Q l
      (Group.totalAmount g0)
    /\ Group.totalProfit (fold_left credit l g0) =
       fold_left (fun sum t => sum + orN (TxnDoc.totalProfit t) 0)%Q l
         (Group.totalProfit g0)
    /\ Group.count (fold_left credit l g0) =
       fold_left (fun n _ => n + 1)%Q l (Group.count g0).
Proof.
  induction l as [|t l IH]; intros g0; cbn [fold_left]; [auto|].
  destruct (IH (credit g0 t)) as (H1 & H2 & H3).
  rewrite H1, H2, H3. auto.
Qed.

Lemma addToGroup_count (m : string) (a p : Q) (acc : list (string * Group.t)) :
  m ∈ acc.*1 ->
  sumQ (map (fun e => Group.count (snd e)) (addToGroup m a p acc))
  == sumQ (map (fun e => Group.count (snd e)) acc) + 1.
Proof.
  induction acc as [|[k g] acc IH]; intros Hin; simpl in *.
  - apply elem_of_nil in Hin. contradiction.
  - destruct (String.eqb k m) eqn:E; simpl.
    + unfold sumQ; simpl; ring.
    + apply String.eqb_neq in E.
      apply elem_of_cons in Hin as [Hin|Hin]; [congruence|].
      pose proof (IH Hin) as H. unfold sumQ in *. simpl. rewrite H. ring.
Qed.

Lemma groupByMethod_count (acc : list (string * Group.t)) (t : TxnDoc.t) :
  inheritedKey (methodOf t) = false ->
  sumQ (map (fun e => Group.count (snd e)) (groupByMethod acc t))
  == sumQ (map (fun e => Group.count (snd e)) acc) + 1.
Proof.
  intros Hkey. unfold groupByMethod. fold (methodOf t). rewrite Hkey.
  destruct (bool_decide (methodOf t ∈ acc.*1)) eqn:E.
  - apply bool_decide_eq_true in E. apply addToGroup_count. exact E.
  - rewrite addToGroup_count.
    + rewrite map_app. cbn [map]. rewrite sumQ_snoc. simpl. ring.
    + rewrite fmap_app. apply elem_of_app. right. simpl. left.
Qed.

(** The counts of the entries add up to the number of transactions. *)
Lemma paymentMethodStats_count (l : list TxnDoc.t) :
  Forall (fun t => inheritedKey (methodOf t) = false) l ->
  forall acc,
    sumQ (map (fun e => Group.count (snd e)) (fold_left groupByMethod l acc))
    == sumQ (map (fun e => Group.count (snd e)) acc)
       + inject_Z (Z.of_nat (length l)).
Proof.
  induction 1 as [|t l Ht Hl IH]; intros acc; cbn [fold_left length].
  - simpl. ring.
  - rewrite IH, (groupByMethod_count acc t Ht).
    rewrite Nat2Z.inj_succ, <- Z.add_1_l, inject_Z_plus. ring.
Qed.

(** X21. The payment-method breakdown, when no payment method is the name
    of a property that objects inherit: each method that occurs has exactly
    one entry and no other method has one; the amount and the profit of an
    entry are those of the transactions of its method, added from zero in
    the order of the list, and its count is their number; the counts of the
    entries add up to the number of transactions. *)
Theorem method_breakdown_entries (transactions : list TxnDoc.t) :
  Forall (fun t => inheritedKey (methodOf t) = false) transactions ->
  let s := comprehensiveStats transactions in
  NoDup (map MethodStats.method (methodStats s))
  /\ (forall m, m ∈ map MethodStats.method (methodStats s)
                <-> exists t, t ∈ transactions /\ methodOf t = m)
  /\ (forall e,
        e ∈ methodStats s ->
        let own := paidBy (MethodStats.method e) transactions in
        MethodStats.totalAmount e =
        fold_left (fun sum t => sum + orQ (TxnDoc.totalAmount t) 0)%Q own 0%Q
        /\ MethodStats.totalProfit e =
           fold_left (fun sum t => sum + orN (TxnDoc.totalProfit t) 0)%Q
             own 0%Q
        /\ MethodStats.count e == inject_Z (Z.of_nat (length own))
        /\ own <> [])
  /\ sumQ (map MethodStats.count (methodStats s))
     == Overview.totalTransactions (overview s).
Proof.
  intros Hkeys s. subst s. unfold comprehensiveStats.
  cbn [methodStats overview Overview.totalTransactions].
  destruct (paymentMethodStats_entries transactions Hkeys [] (NoDup_nil_2))
    as (N & K & E).
  pose proof (paymentMethodStats_count transactions Hkeys []) as C.
  fold (paymentMethodStats transactions) in N, K, E, C.
  rewrite !map_map. cbn [MethodStats.method MethodStats.count].
  change (map (fun x => x.1) (paymentMethodStats transactions))
    with ((paymentMethodStats transactions).*1).
  assert (forall m, m ∈ (paymentMethodStats transactions).*1
                    <-> exists t, t ∈ transactions /\ methodOf t = m) as K'.
  { intros m. rewrite K. split.
    - intros [H|H]; [apply elem_of_nil in H; contradiction|].
      apply list_elem_of_fmap in H as (t & -> & Ht). exists t. auto.
    - intros (t & Ht & <-). right. apply list_elem_of_fmap. exists t. auto. }
  split; [exact N|]. split; [exact K'|]. split.
  2:{ rewrite C. unfold sumQ. simpl. ring. }
  intros e He. apply list_elem_of_fmap in He as ([m g] & -> & Hg).
  cbn [MethodStats.method MethodStats.totalAmount MethodStats.totalProfit
       MethodStats.count fst snd].
  assert (m ∈ (paymentMethodStats transactions).*1) as Hm.
  { apply list_elem_of_fmap. exists (m, g). auto. }
  destruct (E m g Hg) as (g0 & [H0|[_ ->]] & ->);
    [apply elem_of_nil in H0; contradiction|].
  destruct (credit_fold (paidBy m transactions) emptyGroup) as (H1 & H2 & H3).
  split; [exact H1|]. split; [exact H2|]. split.
  { rewrite H3. cbn [emptyGroup Group.count]. rewrite count_fold. ring. }
  apply K' in Hm as (t & Ht & Hmt). intros Hnil.
  assert (t ∈ paidBy m transactions) as Hin.
  { unfold paidBy. apply list_elem_of_In, filter_In. split.
    - apply list_elem_of_In. exact Ht.
    - apply String.eqb_eq. exact Hmt. }
  rewrite Hnil in Hin. apply elem_of_nil in Hin. exact Hin.
Qed.

Lemma method_breakdown_entries_witness :
  let s := comprehensiveStats salesAM in
  NoDup (map MethodStats.method (methodStats s))
  /\ (forall m, m ∈ map MethodStats.method (methodStats s)
                <-> exists t, t ∈ salesAM /\ methodOf t = m)
  /\ (forall e,
        e ∈ methodStats s ->
        let own := paidBy (MethodStats.method e) salesAM in
        MethodStats.totalAmount e =
        fold_left (fun sum t => sum + orQ (TxnDoc.totalAmount t) 0)%Q own 0%Q
        /\ MethodStats.totalProfit e =
           fold_left (fun sum t => sum + orN (TxnDoc.totalProfit t) 0)%Q
             own 0%Q
        /\ MethodStats.count e == inject_Z (Z.of_nat (length own))
        /\ own <> [])
  /\ sumQ (map MethodStats.count (methodStats s))
     == Overview.totalTransactions (overview s).
Proof.
  apply (method_breakdown_entries salesAM).
  repeat constructor.
Defined.

(** * Stock status of a product *)

(** X24. With a minimum stock level that is not negative, as the schema
    requires, a product needs reordering exactly when its stock status is
    not [in_stock]; and the status is [out_of_stock] exactly when the stock
    is zero. *)
Theorem reorder_iff_not_in_stock (p : Product.t) (minStockLevel : Q) :
  (0 <= minStockLevel)%Q ->
  (Virtual.needsReorder p minStockLevel = true
   <-> Virtual.stockStatus p minStockLevel <> "in_stock")
  /\ (Virtual.stockStatus p minStockLevel = "out_of_stock"
      <-> Product.currentStock p == 0).
Proof.
  intros Hmin. unfold Virtual.needsReorder, Virtual.stockStatus.
  destruct (Qeq_bool (Product.currentStock p) 0) eqn:E.
  - apply Qeq_bool_iff in E. split.
    + split; [discriminate|]. intros _. apply Qle_bool_iff.
      rewrite E. exact Hmin.
    + split; auto.
  - apply Qeq_bool_neq in E.
    destruct (Qle_bool (Product.currentStock p) minStockLevel); split;
      split; try discriminate; try congruence; try contradiction; auto.
Qed.

Lemma reorder_iff_not_in_stock_witness :
  (Virtual.needsReorder productR 5 = true
   <-> Virtual.stockStatus productR 5 <> "in_stock")
  /\ (Virtual.stockStatus productR 5 = "out_of_stock"
      <-> Product.currentStock productR == 0).
Proof.
  apply (reorder_iff_not_in_stock productR 5). discriminate.
Defined.

(** X25. The write of an accepted line of a completed sale never improves
    the stock status: for a quantity that is not negative, a product that
    needed reordering still does, and the product is out of stock afterwards
    exactly when the line took all that was left. *)
Theorem sale_never_improves_stock_status (p : Product.t) (item : Item.t)
  (entry : History.t) (now : Z) (minStockLevel : Q) :
  overStock "completed" p item = false ->
  absentOrNonNegative (Item.quantity item) ->
  let after := applyStockUpdate (newStock p item) entry now p in
  (Product.currentStock after <= Product.currentStock p)%Q
  /\ (Virtual.needsReorder p minStockLevel = true ->
      Virtual.needsReorder after minStockLevel = true)
  /\ (Virtual.stockStatus after minStockLevel = "out_of_stock"
      <-> itemQuantity item == Product.currentStock p).
Proof.
  intros Ho Hq after.
  destruct (newStock_accepted p item Ho) as [Hn Hpos].
  assert (0 <= itemQuantity item)%Q as Hq0.
  { unfold itemQuantity. apply orN_nonneg; [exact Hq | discriminate]. }
  assert (Product.currentStock after
          == Product.currentStock p - itemQuantity item) as Hafter.
  { subst after. simpl. rewrite Hn. unfold currentStock.
    rewrite orQ_eq. reflexivity. }
  assert (Product.currentStock after <= Product.currentStock p)%Q as Hle.
  { rewrite Hafter.
    apply (Qplus_le_l _ _ (itemQuantity item)). ring_simplify.
    rewrite <- (Qplus_0_r (Product.currentStock p)) at 1.
    apply Qplus_le_r. exact Hq0. }
  split; [exact Hle|]. split.
  - unfold Virtual.needsReorder. intros H. apply Qle_bool_iff.
    apply Qle_bool_iff in H. eapply Qle_trans; eassumption.
  - unfold Virtual.stockStatus.
    destruct (Qeq_bool (Product.currentStock after) 0) eqn:E.
    + apply Qeq_bool_iff in E. split; [|reflexivity]. intros _.
      rewrite Hafter in E.
      apply (Qplus_inj_r _ _ (- itemQuantity item)). rewrite E. ring.
    + apply Qeq_bool_neq in E. split.
      * destruct (Qle_bool _ _); discriminate.
      * intros H. exfalso. apply E. rewrite Hafter, H. ring.
Qed.

Lemma sale_never_improves_stock_status_witness :
  let after :=
    applyStockUpdate (newStock productR (mkItem idR 2))
      (historyEntry declaredRuntime requestPR (finalShopIdOf requestPR)
         productR (mkItem idR 2))
      1700000000000 productR in
  (Product.currentStock after <= Product.currentStock productR)%Q
  /\ (Virtual.needsReorder productR 5 = true ->
      Virtual.needsReorder after 5 = true)
  /\ (Virtual.stockStatus after 5 = "out_of_stock"
      <-> itemQuantity (mkItem idR 2) == Product.currentStock productR).
Proof.
  apply (sale_never_improves_stock_status productR (mkItem idR 2)).
  - reflexivity.
  - simpl. discriminate.
Defined.

(** * The handler as written on scenario A *)

Lemma undeclared_identifier_aborts_every_sale_witness :
  res_status (fst (processSale shippedRuntime requestA storeA)) <> 201%Z
  /\ snd (processSale shippedRuntime requestA storeA) = storeA.
Proof.
  apply (undeclared_identifier_aborts_every_sale shippedRuntime requestA
           storeA).
  reflexivity.
Defined.
